(** * Donor lifecycle classification and churn-risk scoring

    A shallow embedding of the donor lifecycle engine of
    [new_analytics.py] (section "ADVANCED ANALYTICS - D3"):
    [calculate_lifecycle_stage_advanced], [calculate_churn_risk_advanced],
    [get_recommended_action_advanced], the report assembled by
    [get_donor_lifecycle_analytics] and its export
    [download_at_risk_donors]; of [get_lifecycle_snapshot]; and of the 2x2
    matrix of [analyze_strategic_initiatives].

    Python [int] is [Z]; Python [float] is an IEEE 754 binary64 value,
    embedded as [spec_float] with [prec = 53] and [emax = 1024]; [str] is
    [string]; [Optional] is [option].  A raised exception is [None] in the
    [option] monad; where the kind of the exception matters (the 2x2
    matrix) the result type names it. *)

From Stdlib Require Import ZArith List String Ascii Bool Lia.
From Stdlib Require Import Floats.SpecFloat DecimalString.
From Stdlib Require Import Sorting.Permutation Sorting.Sorted.
From stdpp Require Import gmap list.

Open Scope Z_scope.

(** ** Python numbers *)

Module PyNum.

Definition float := spec_float.

Definition prec : Z := 53.
Definition emax : Z := 1024.

(** [float(n)] for an [int] [n], and float literals [m * 2^e]. *)
Definition float_of_int (n : Z) : float := binary_normalize prec emax n 0 false.
Definition float_lit (m e : Z) : float := binary_normalize prec emax m e false.

Definition fmul : float -> float -> float := SFmul prec emax.
Definition fadd : float -> float -> float := SFadd prec emax.

Definition is_nan (x : float) : bool :=
  match x with S754_nan => true | _ => false end.

(** The value of a number, as Python's comparisons see it: NaN, an
    infinity, or the dyadic rational [m * 2^e].  Comparisons between an
    [int] and a [float] are exact in Python (no conversion of the [int]),
    so both kinds of operand are compared through this view. *)
Inductive value :=
| VNan
| VInf (neg : bool)
| VDyadic (m e : Z).

Definition value_of_float (x : float) : value :=
  match x with
  | S754_nan => VNan
  | S754_infinity s => VInf s
  | S754_zero _ => VDyadic 0 0
  | S754_finite s m e => VDyadic (cond_Zopp s (Zpos m)) e
  end.

Definition value_of_int (n : Z) : value := VDyadic n 0.

Definition dyadic_compare (m1 e1 m2 e2 : Z) : comparison :=
  let e := Z.min e1 e2 in
  (m1 * 2 ^ (e1 - e)) ?= (m2 * 2 ^ (e2 - e)).

(** [None] when an operand is NaN: every ordered comparison is then false. *)
Definition compare (x y : value) : option comparison :=
  match x, y with
  | VNan, _ | _, VNan => None
  | VInf s1, VInf s2 =>
      Some (match s1, s2 with
            | true, false => Lt
            | false, true => Gt
            | _, _ => Eq
            end)
  | VInf s, VDyadic _ _ => Some (if s then Lt else Gt)
  | VDyadic _ _, VInf s => Some (if s then Gt else Lt)
  | VDyadic m1 e1, VDyadic m2 e2 => Some (dyadic_compare m1 e1 m2 e2)
  end.

Definition ltb (x y : value) : bool :=
  match compare x y with Some Lt => true | _ => false end.
Definition gtb (x y : value) : bool :=
  match compare x y with Some Gt => true | _ => false end.
Definition geb (x y : value) : bool :=
  match compare x y with Some (Gt | Eq) => true | _ => false end.
Definition eqb (x y : value) : bool :=
  match compare x y with Some Eq => true | _ => false end.

(** [a / b] on two [int]s: the correctly rounded quotient;
    [ZeroDivisionError] is [None].  (CPython also raises [OverflowError]
    when the quotient exceeds the binary64 range, which needs
    [|a| >= 2^1023]; the embedding yields the infinity there.) *)
Definition int_operand (n : Z) : float :=
  match n with
  | Z0 => S754_zero false
  | Zpos p => S754_finite false p 0
  | Zneg p => S754_finite true p 0
  end.

Definition int_truediv (a b : Z) : option float :=
  if b =? 0 then None
  else Some (SFdiv prec emax (int_operand a) (int_operand b)).

(** [round(x, ndigits)] for a float [x] and [ndigits >= 0]: [x] is
    rounded, half to even on its exact value, to an integer number [n]
    of units [10^-ndigits], and the result is the float nearest to
    [n / 10^ndigits]. *)
Definition round_half_even (num den : Z) : Z :=
  let q := num / den in
  let r := num mod den in
  match 2 * r ?= den with
  | Lt => q
  | Gt => q + 1
  | Eq => if Z.even q then q else q + 1
  end.

Definition round (x : float) (ndigits : Z) : float :=
  match x with
  | S754_finite s m e =>
      let scaled := Zpos m * 10 ^ ndigits in
      let n := if 0 <=? e then scaled * 2 ^ e
               else round_half_even scaled (2 ^ (- e)) in
      match n with
      | Zpos p =>
          SFdiv prec emax (S754_finite s p 0) (int_operand (10 ^ ndigits))
      | _ => S754_zero s
      end
  | _ => x
  end.

(** [str(n)] for an [int]. *)
Definition str_of_int (n : Z) : string := NilZero.string_of_int (Z.to_int n).

(** A value that is an [int] in one branch and a [float] in another. *)
Inductive number :=
| Int (n : Z)
| Float (x : float).

(** Truth value of a float: false exactly for the two zeros. *)
Definition truthy (x : float) : bool :=
  match x with S754_zero _ => false | _ => true end.

End PyNum.

Abbreviation float := PyNum.float.

(** ** [datetime] and [timedelta] *)

Module datetime.

Record t := mk {
  year : Z; month : Z; day : Z;
  hour : Z; minute : Z; second : Z; microsecond : Z
}.

Definition is_leap (y : Z) : bool :=
  (y mod 4 =? 0) && (negb (y mod 100 =? 0) || (y mod 400 =? 0)).

Definition days_before_year (y : Z) : Z :=
  let y' := y - 1 in y' * 365 + y' / 4 - y' / 100 + y' / 400.

Definition days_in_month : list Z :=
  [31; 28; 31; 30; 31; 30; 31; 31; 30; 31; 30; 31].

Definition days_before_month (y m : Z) : Z :=
  fold_right Z.add 0 (firstn (Z.to_nat (m - 1)) days_in_month)
  + (if (2 <? m) && is_leap y then 1 else 0).

Definition ymd2ord (y m d : Z) : Z :=
  days_before_year y + days_before_month y m + d.

Definition toordinal (d : t) : Z := ymd2ord (year d) (month d) (day d).

Definition day_seconds (d : t) : Z :=
  second d + minute d * 60 + hour d * 3600.

(** A normalised [timedelta]: [0 <= seconds < 86400] and
    [0 <= microseconds < 10^6]; [days] carries the sign. *)
Record timedelta := mk_timedelta { days : Z; seconds : Z; microseconds : Z }.

Definition make_timedelta (d s us : Z) : timedelta :=
  let s' := s + us / 1000000 in
  {| days := d + s' / 86400;
     seconds := s' mod 86400;
     microseconds := us mod 1000000 |}.

(** [a - b] *)
Definition sub (a b : t) : timedelta :=
  make_timedelta (toordinal a - toordinal b)
                 (day_seconds a - day_seconds b)
                 (microsecond a - microsecond b).

(** The instant as a count of microseconds, the order of the database's
    [MIN] and [MAX] over a [DateTime] column. *)
Definition instant (d : t) : Z :=
  (toordinal d * 86400 + day_seconds d) * 1000000 + microsecond d.

End datetime.

(** ** Enumerations *)

Inductive LifecycleStageEnum :=
| PROSPECT | FIRST_TIME | REPEAT | MAJOR | LAPSED | LOST.

Inductive ChurnRisk := LOW | MEDIUM | HIGH | CRITICAL.

Global Instance LifecycleStageEnum_eq_dec : EqDecision LifecycleStageEnum :=
  ltac:(solve_decision).

Global Instance ChurnRisk_eq_dec : EqDecision ChurnRisk :=
  ltac:(solve_decision).

(** Declaration order of the enumeration, used as the dictionary key code. *)
Definition stage_code (s : LifecycleStageEnum) : nat :=
  match s with
  | PROSPECT => 0 | FIRST_TIME => 1 | REPEAT => 2
  | MAJOR => 3 | LAPSED => 4 | LOST => 5
  end%nat.

Definition stage_of_code (n : nat) : option LifecycleStageEnum :=
  match n with
  | 0 => Some PROSPECT | 1 => Some FIRST_TIME | 2 => Some REPEAT
  | 3 => Some MAJOR | 4 => Some LAPSED | 5 => Some LOST
  | _ => None
  end%nat.

Definition stage_of_code_of_stage (s : LifecycleStageEnum)
  : stage_of_code (stage_code s) = Some s :=
  match s with
  | PROSPECT => eq_refl | FIRST_TIME => eq_refl | REPEAT => eq_refl
  | MAJOR => eq_refl | LAPSED => eq_refl | LOST => eq_refl
  end.

Global Instance LifecycleStageEnum_countable : Countable LifecycleStageEnum :=
  inj_countable stage_code stage_of_code stage_of_code_of_stage.

(** ** The lifecycle stage classifier *)

Definition calculate_lifecycle_stage_advanced
    (donation_count : Z) (last_donation_date : option datetime.t)
    (lifetime_value : float) (days_since_last : Z) : LifecycleStageEnum :=
  if donation_count =? 0 then PROSPECT
  else if donation_count =? 1 then
    if days_since_last >? 365 then LOST else FIRST_TIME
  else if days_since_last >=? 365 then
    if days_since_last >=? 730 then LOST else LAPSED
  else if PyNum.geb (PyNum.value_of_float lifetime_value) (PyNum.value_of_int 5000)
  then MAJOR
  else REPEAT.

(** ** The churn risk scorer

    The two locals [risk_factors] and [risk_score] are threaded through the
    four blocks of the function body as a state. *)

Record risk_state := mk_risk_state {
  risk_factors : list string;
  risk_score : Z
}.

Definition risk_init : risk_state :=
  {| risk_factors := []; risk_score := 0 |}.

(** [risk_factors.append(factor); risk_score += weight] *)
Definition flag (factor : string) (weight : Z) (st : risk_state) : risk_state :=
  {| risk_factors := risk_factors st ++ [factor];
     risk_score := risk_score st + weight |}.

Definition no_donation_factor (days_since_last : Z) (span : string) : string :=
  ("No donation in " ++ PyNum.str_of_int days_since_last ++ " days (" ++ span ++ ")")%string.

Definition overdue_factor : string := "Overdue based on donation pattern".
Definition limited_factor : string := "Limited giving history (< 3 donations)".
Definition high_value_factor : string := "High-value donor showing inactivity".

(** Inactivity period *)
Definition inactivity_period (days_since_last : Z) (st : risk_state) : risk_state :=
  if days_since_last >=? 365 then
    flag (no_donation_factor days_since_last "12+ months") 40 st
  else if days_since_last >=? 180 then
    flag (no_donation_factor days_since_last "6+ months") 20 st
  else if days_since_last >=? 90 then
    flag (no_donation_factor days_since_last "3+ months") 10 st
  else st.

(** The literal [1.5] *)
Definition one_and_a_half : float := PyNum.float_lit 3 (-1).

(** Donation pattern deviation *)
Definition pattern_deviation (days_since_last : Z) (avg_donation_frequency : float)
    (st : risk_state) : risk_state :=
  if PyNum.gtb (PyNum.value_of_float avg_donation_frequency) (PyNum.value_of_int 0) then
    let expected_next := PyNum.fmul avg_donation_frequency one_and_a_half in
    if PyNum.gtb (PyNum.value_of_int days_since_last) (PyNum.value_of_float expected_next)
    then flag overdue_factor 25 st
    else st
  else st.

(** Limited engagement *)
Definition limited_engagement (donation_count : Z) (st : risk_state) : risk_state :=
  if donation_count <? 3 then flag limited_factor 15 st else st.

(** High-value donor risk *)
Definition high_value_risk (days_since_last : Z) (lifetime_value : float)
    (st : risk_state) : risk_state :=
  if PyNum.geb (PyNum.value_of_float lifetime_value) (PyNum.value_of_int 5000)
     && (days_since_last >=? 180)
  then flag high_value_factor 20 st
  else st.

(** The state reached just before the final tier test. *)
Definition churn_risk_state (days_since_last donation_count : Z)
    (avg_donation_frequency lifetime_value : float) : risk_state :=
  high_value_risk days_since_last lifetime_value
    (limited_engagement donation_count
      (pattern_deviation days_since_last avg_donation_frequency
        (inactivity_period days_since_last risk_init))).

Definition risk_tier (score : Z) : ChurnRisk :=
  if score >=? 70 then CRITICAL
  else if score >=? 50 then HIGH
  else if score >=? 30 then MEDIUM
  else LOW.

Definition calculate_churn_risk_advanced (days_since_last donation_count : Z)
    (avg_donation_frequency lifetime_value : float) : ChurnRisk * list string :=
  let st := churn_risk_state days_since_last donation_count
              avg_donation_frequency lifetime_value in
  (risk_tier (risk_score st), risk_factors st).

(** ** The action recommender *)

Definition get_recommended_action_advanced (risk_level : ChurnRisk)
    (stage : LifecycleStageEnum) : string :=
  match risk_level, stage with
  | CRITICAL, MAJOR => "URGENT: Personal call from Executive Director within 48 hours"
  | CRITICAL, REPEAT => "High-touch re-engagement campaign, offer exclusive event invite"
  | HIGH, MAJOR => "Schedule coffee meeting, share insider updates"
  | HIGH, REPEAT => "Multi-channel re-engagement, highlight recent impact"
  | MEDIUM, REPEAT => "Include in next newsletter, light touch"
  | _, _ => "Standard stewardship communication"
  end.

(** ** A sorting function

    [list.sort] belongs to the interpreter, not to this program: the
    endpoint below is embedded over any sorting function (the variable
    [list_sort] of its section).  The stable insertion sort is one; the
    examples are run with it.  Each element, taken from left to right, goes
    in front of the first element whose key is strictly greater; with
    [reverse] the list is reversed, sorted, and reversed again, which keeps
    the sort stable. *)

Section InsertionSort.
Context {A K : Type} (key : A -> K) (lt : K -> K -> bool).

Fixpoint insert_sorted (x : A) (l : list A) : list A :=
  match l with
  | [] => [x]
  | y :: l' => if lt (key x) (key y) then x :: y :: l' else y :: insert_sorted x l'
  end.

Definition insertion_sort_ascending (l : list A) : list A :=
  fold_left (fun acc x => insert_sorted x acc) l [].

Definition insertion_sort_with (reverse : bool) (l : list A) : list A :=
  if reverse then rev (insertion_sort_ascending (rev l)) else insertion_sort_ascending l.
End InsertionSort.

Definition insertion_sort (A K : Type) (key : A -> K) (lt : K -> K -> bool)
    (reverse : bool) (l : list A) : list A :=
  insertion_sort_with key lt reverse l.

(** [range(lo, hi)] *)
Definition py_range (lo hi : Z) : list Z :=
  map (fun i => lo + Z.of_nat i) (seq 0 (Z.to_nat (hi - lo))).

(** ** The database

    The tables read by the endpoints, with the columns they read, as
    [models.py] declares them.  A table is the list of its rows in the order
    in which the server yields them; no query below asks for an order. *)

(** A UUID value, written as its canonical text: thirty-two lower-case
    hexadecimal digits in groups of 8-4-4-4-12.  This is also what [str]
    returns for it. *)
Abbreviation uuid := string.

Record Organization := mk_Organization {
  organization_pk : uuid;
  legal_name : string
}.

Record Party := mk_Party {
  party_id : uuid;
  party_organization_id : uuid;
  display_name : string
}.

Record Donation := mk_Donation {
  donation_party_id : uuid;
  received_date : datetime.t;
  intent_amount : float
}.

(** [models.ContactPoint]; its text column is named [value]. *)
Record ContactPoint := mk_ContactPoint {
  cp_id : uuid;
  cp_organization_id : uuid;
  cp_party_id : uuid;
  cp_type : string;
  cp_channel : string;
  cp_value : string;
  cp_is_primary : option bool;
  cp_verified_at : option datetime.t
}.

(** The server holds the tables and reads the text of a query parameter
    that is compared with a UUID column: [uuid_in] gives the UUID that the
    text denotes, and [None] when the text denotes none, in which case the
    query raises [DataError]. *)
Record Database := mk_Database {
  organizations : list Organization;
  parties : list Party;
  donations : list Donation;
  contact_points : list ContactPoint;
  uuid_in : string -> option uuid
}.

(** The value of a column in a row. *)
Inductive column_value :=
| UuidValue (u : uuid)
| TextValue (s : string)
| BoolValue (b : option bool)
| TimeValue (t : option datetime.t).

(** The columns that the class [models.ContactPoint] declares, each with
    what it reads from a row. *)
Definition ContactPoint_columns : list (string * (ContactPoint -> column_value)) :=
  [ ("id", fun c => UuidValue (cp_id c));
    ("organization_id", fun c => UuidValue (cp_organization_id c));
    ("party_id", fun c => UuidValue (cp_party_id c));
    ("type", fun c => TextValue (cp_type c));
    ("channel", fun c => TextValue (cp_channel c));
    ("value", fun c => TextValue (cp_value c));
    ("is_primary", fun c => BoolValue (cp_is_primary c));
    ("verified_at", fun c => TimeValue (cp_verified_at c)) ]%string.

(** [cls.name] for the name of a column of a mapped class: [None] is the
    [AttributeError] raised for a name under which the class declares no
    column.  (A mapped class has a few attributes that are no columns, for
    [models.ContactPoint] the relationship [party]; the endpoint names none
    of them.) *)
Fixpoint class_column {R : Type} (columns : list (string * (R -> column_value)))
    (name : string) : option (R -> column_value) :=
  match columns with
  | [] => None
  | (declared, read) :: rest =>
      if String.eqb declared name then Some read else class_column rest name
  end.

(** One row of the [donor_stats] query. *)
Record DonorStats := mk_DonorStats {
  donor_id : uuid;
  donor_name : string;
  donation_count : Z;
  last_donation_date : option datetime.t;
  lifetime_value : option float;
  first_donation_date : option datetime.t
}.

Definition sql_max (l : list datetime.t) : option datetime.t :=
  fold_left (fun acc d =>
               match acc with
               | None => Some d
               | Some m => if datetime.instant m <? datetime.instant d then Some d else Some m
               end) l None.

Definition sql_min (l : list datetime.t) : option datetime.t :=
  fold_left (fun acc d =>
               match acc with
               | None => Some d
               | Some m => if datetime.instant d <? datetime.instant m then Some d else Some m
               end) l None.

Definition sql_sum (l : list float) : option float :=
  match l with
  | [] => None
  | x :: r => Some (fold_left PyNum.fadd r x)
  end.

Definition donations_of (db : Database) (p : Party) : list Donation :=
  List.filter (fun d => String.eqb (party_id p) (donation_party_id d)) (donations db).

(** [Party] outer-joined with [Donation], restricted to the organization and
    grouped by party: [Party.id] is the primary key, so every party of the
    organization is one group, with its donations (possibly none).  The
    organization is given as the UUID read from the parameter. *)
Definition donor_stats (db : Database) (organization_id : uuid) : list DonorStats :=
  map (fun p =>
         let ds := donations_of db p in
         {| donor_id := party_id p;
            donor_name := display_name p;
            donation_count := Z.of_nat (length ds);
            last_donation_date := sql_max (map received_date ds);
            lifetime_value := sql_sum (map intent_amount ds);
            first_donation_date := sql_min (map received_date ds) |})
      (List.filter (fun p => String.eqb (party_organization_id p) organization_id)
                   (parties db)).

(** The e-mail lookup.  Its first step is the evaluation of
    [models.ContactPoint.contact_value], the column handed to [db.query];
    then comes the first contact point of the party of type ['email'], of
    which that column is read ([None] when there is no such row). *)
Definition email_query (db : Database) (donor : uuid) : option (option column_value) :=
  contact_value ← class_column ContactPoint_columns "contact_value";
  Some (match List.filter (fun c => String.eqb (cp_party_id c) donor
                                    && String.eqb (cp_type c) "email")
                          (contact_points db) with
        | [] => None
        | c :: _ => Some (contact_value c)
        end).

(** The validation of a field declared [Optional[str]]: a text or [None];
    any other value is refused (a validation error). *)
Definition optional_str (v : option column_value) : option (option string) :=
  match v with
  | None => Some None
  | Some (TextValue s) => Some (Some s)
  | Some _ => None
  end.

(** [Party] joined with [Donation], restricted to the organization and to the
    donations received in [year], grouped by party. *)
Definition cohort_donors (db : Database) (organization_id : uuid) (year : Z)
  : list uuid :=
  let joined :=
    flat_map (fun p => map (fun d => (p, d)) (donations_of db p)) (parties db) in
  let rows :=
    List.filter (fun pd => String.eqb (party_organization_id (fst pd)) organization_id
                           && (datetime.year (received_date (snd pd)) =? year))
                joined in
  nodup string_dec (map (fun pd => party_id (fst pd)) rows).

(** ** The report *)

(** The dictionary appended to [donors_by_stage[stage]]. *)
Record StageDonor := mk_StageDonor {
  sd_donor_id : uuid;
  sd_donor_name : string;
  sd_donation_count : Z;
  sd_lifetime_value : float;
  sd_days_since_last : Z;
  sd_last_donation_date : option datetime.t;
  sd_avg_frequency : float
}.

Record DonorChurnRisk := mk_DonorChurnRisk {
  cr_donor_id : string;
  cr_donor_name : string;
  cr_email : option string;
  cr_last_donation_date : option datetime.t;
  cr_days_since_last_donation : Z;
  cr_total_donations : Z;
  cr_lifetime_value : float;
  cr_current_stage : LifecycleStageEnum;
  cr_risk_level : ChurnRisk;
  cr_risk_factors : list string;
  cr_recommended_action : string
}.

Record CohortAnalysis := mk_CohortAnalysis {
  cohort_period : string;
  initial_count : Z;
  retained_month_1 : Z;
  retained_month_3 : Z;
  retained_month_6 : Z;
  retained_month_12 : Z;
  retention_rate_12m : float;
  avg_cohort_value : float
}.

Record SummaryMetrics := mk_SummaryMetrics {
  total_donors : Z;
  active_donors : Z;
  at_risk_count : Z;
  critical_risk_count : Z;
  major_donors : Z;
  lapsed_donors : Z;
  lost_donors : Z;
  retention_rate : PyNum.number
}.

(** The response.  Its [lifecycle_stages] field (per-stage counts and
    averages) is read by no property stated below and is left out. *)
Record LifecycleAnalyticsResponse := mk_Response {
  organization_id : string;
  snapshot_date : datetime.t;
  cohort_analysis : list CohortAnalysis;
  at_risk_donors : list DonorChurnRisk;
  summary_metrics : SummaryMetrics
}.

(** ** [get_donor_lifecycle_analytics] *)

Definition risk_order (r : ChurnRisk) : Z :=
  match r with LOW => 1 | MEDIUM => 2 | HIGH => 3 | CRITICAL => 4 end.

Definition risk_order_sort (r : ChurnRisk) : Z :=
  match r with CRITICAL => 4 | HIGH => 3 | MEDIUM => 2 | LOW => 1 end.

(** [x or 0]: the literal [0] is an [int]; it is only ever compared, so the
    float zero stands for it. *)
Definition or_zero (x : option float) : float :=
  match x with
  | Some v => if PyNum.truthy v then v else S754_zero false
  | None => S754_zero false
  end.

Definition days_since_last_of (current_date : datetime.t) (donor : DonorStats) : Z :=
  match last_donation_date donor with
  | Some d => datetime.days (datetime.sub current_date d)
  | None => 999999
  end.

(** Calculate average frequency *)
Definition avg_frequency_of (donor : DonorStats) : option float :=
  if donation_count donor >? 1 then
    match first_donation_date donor, last_donation_date donor with
    | Some first, Some last =>
        let total_days := datetime.days (datetime.sub last first) in
        if donation_count donor >? 1
        then PyNum.int_truediv total_days (donation_count donor - 1)
        else Some (S754_zero false)
    | _, _ => Some (S754_zero false)
    end
  else Some (S754_zero false).

(** The two accumulators of the loop over [donor_stats]:
    [donors_by_stage] is a [defaultdict(list)]. *)
Record loop_state := mk_loop_state {
  donors_by_stage : gmap LifecycleStageEnum (list StageDonor);
  at_risk : list DonorChurnRisk
}.

Definition loop_init : loop_state :=
  {| donors_by_stage := ∅; at_risk := [] |}.

(** [d[k]] on a [defaultdict(list)], read only. *)
Definition stage_list (m : gmap LifecycleStageEnum (list StageDonor))
    (stage : LifecycleStageEnum) : list StageDonor :=
  default [] (m !! stage).

(** The body of the loop, for one row.  The row is filed under its stage
    first; the e-mail lookup and the roster entry come last, and only for a
    donor that goes on the roster. *)
Definition process_donor (db : Database) (include_at_risk : bool)
    (risk_threshold : ChurnRisk) (current_date : datetime.t)
    (st : loop_state) (donor : DonorStats) : option loop_state :=
  let days_since_last := days_since_last_of current_date donor in
  avg_frequency ← avg_frequency_of donor;
  let stage :=
    calculate_lifecycle_stage_advanced (donation_count donor)
      (last_donation_date donor) (or_zero (lifetime_value donor)) days_since_last in
  let entry :=
    {| sd_donor_id := donor_id donor;
       sd_donor_name := donor_name donor;
       sd_donation_count := donation_count donor;
       sd_lifetime_value := or_zero (lifetime_value donor);
       sd_days_since_last := days_since_last;
       sd_last_donation_date := last_donation_date donor;
       sd_avg_frequency := avg_frequency |} in
  let by_stage :=
    <[stage := stage_list (donors_by_stage st) stage ++ [entry]]> (donors_by_stage st) in
  let '(risk_level, factors) :=
    calculate_churn_risk_advanced days_since_last (donation_count donor)
      avg_frequency (or_zero (lifetime_value donor)) in
  if include_at_risk && (risk_order risk_level >=? risk_order risk_threshold) then
    found ← email_query db (donor_id donor);
    email ← optional_str found;
    Some {| donors_by_stage := by_stage;
            at_risk :=
              at_risk st ++
              [{| cr_donor_id := donor_id donor;
                  cr_donor_name := donor_name donor;
                  cr_email := email;
                  cr_last_donation_date := last_donation_date donor;
                  cr_days_since_last_donation := days_since_last;
                  cr_total_donations := donation_count donor;
                  cr_lifetime_value := or_zero (lifetime_value donor);
                  cr_current_stage := stage;
                  cr_risk_level := risk_level;
                  cr_risk_factors := factors;
                  cr_recommended_action :=
                    get_recommended_action_advanced risk_level stage |}] |}
  else Some {| donors_by_stage := by_stage; at_risk := at_risk st |}.

Fixpoint donor_loop (db : Database) (include_at_risk : bool)
    (risk_threshold : ChurnRisk) (current_date : datetime.t)
    (rows : list DonorStats) (st : loop_state) : option loop_state :=
  match rows with
  | [] => Some st
  | donor :: rest =>
      st' ← process_donor db include_at_risk risk_threshold current_date st donor;
      donor_loop db include_at_risk risk_threshold current_date rest st'
  end.

(** Sort at-risk donors: the key is the tuple
    [(risk_order_sort[x.risk_level], x.lifetime_value)].  A tuple is less
    than another when, at the first position where the two differ, its
    component is the lesser one. *)
Definition roster_key (x : DonorChurnRisk) : Z * float :=
  (risk_order_sort (cr_risk_level x), cr_lifetime_value x).

Definition roster_key_lt (k1 k2 : Z * float) : bool :=
  if negb (fst k1 =? fst k2) then fst k1 <? fst k2
  else
    let v1 := PyNum.value_of_float (snd k1) in
    let v2 := PyNum.value_of_float (snd k2) in
    if negb (PyNum.eqb v1 v2) then PyNum.ltb v1 v2 else false.

(** Simplified cohort analysis *)
Definition cohort_of_year (db : Database) (org : uuid) (year : Z)
  : list CohortAnalysis :=
  let initial := Z.of_nat (length (cohort_donors db org year)) in
  if initial >? 0 then
    [{| cohort_period := PyNum.str_of_int year;
        initial_count := initial;
        retained_month_1 := 0;
        retained_month_3 := 0;
        retained_month_6 := 0;
        retained_month_12 := 0;
        retention_rate_12m := S754_zero false;
        avg_cohort_value := S754_zero false |}]
  else [].

Definition cohort_years (current_date : datetime.t) : list Z :=
  py_range (datetime.year current_date - 2) (datetime.year current_date + 1).

Definition build_cohort_analysis (db : Database) (org : uuid)
    (current_date : datetime.t) : list CohortAnalysis :=
  flat_map (cohort_of_year db org) (cohort_years current_date).

(** [sum(len(donors) for donors in donors_by_stage.values())] *)
Definition count_donors (m : gmap LifecycleStageEnum (list StageDonor)) : Z :=
  map_fold (fun _ donors acc => acc + Z.of_nat (length donors)) 0 m.

Definition retention_rate_of (active total : Z) : option PyNum.number :=
  if total >? 0 then
    ratio ← PyNum.int_truediv active total;
    Some (PyNum.Float (PyNum.round (PyNum.fmul ratio (PyNum.float_of_int 100)) 1))
  else Some (PyNum.Int 0).

Definition build_summary (m : gmap LifecycleStageEnum (list StageDonor))
    (roster : list DonorChurnRisk) : option SummaryMetrics :=
  let total := count_donors m in
  let active := Z.of_nat (length (stage_list m REPEAT))
                + Z.of_nat (length (stage_list m MAJOR)) in
  rate ← retention_rate_of active total;
  Some {| total_donors := total;
          active_donors := active;
          at_risk_count := Z.of_nat (length roster);
          critical_risk_count :=
            Z.of_nat (length (List.filter
                                (fun d => bool_decide (cr_risk_level d = CRITICAL))
                                roster));
          major_donors := Z.of_nat (length (stage_list m MAJOR));
          lapsed_donors := Z.of_nat (length (stage_list m LAPSED));
          lost_donors := Z.of_nat (length (stage_list m LOST));
          retention_rate := rate |}.

Section Analytics.

(** [l.sort(key=..., reverse=...)]: the interpreter's sort, given the key
    function and the "less than" that it calls on the keys. *)
Variable list_sort :
  forall A K : Type, (A -> K) -> (K -> K -> bool) -> bool -> list A -> list A.

Definition sort_at_risk (l : list DonorChurnRisk) : list DonorChurnRisk :=
  list_sort _ _ roster_key roster_key_lt true l.

(** The endpoint.  [current_date] stands for the [datetime.utcnow()] read at
    the top of the function; [None] is a raised exception.  The first query
    hands [organization_id] to the server, which reads it as a UUID. *)
Definition get_donor_lifecycle_analytics (db : Database) (current_date : datetime.t)
    (organization_id : string) (include_at_risk : bool) (risk_threshold : ChurnRisk)
  : option LifecycleAnalyticsResponse :=
  org ← uuid_in db organization_id;
  st ← donor_loop db include_at_risk risk_threshold current_date
         (donor_stats db org) loop_init;
  let at_risk_donors := sort_at_risk (at_risk st) in
  let cohorts := build_cohort_analysis db org current_date in
  summary ← build_summary (donors_by_stage st) at_risk_donors;
  Some {| organization_id := organization_id;
          snapshot_date := current_date;
          cohort_analysis := cohorts;
          at_risk_donors := firstn 100 at_risk_donors;
          summary_metrics := summary |}.

(** ** [download_at_risk_donors] *)

(** The values of the two enumerations. *)
Definition LifecycleStageEnum_value (s : LifecycleStageEnum) : string :=
  match s with
  | PROSPECT => "prospect" | FIRST_TIME => "first_time" | REPEAT => "repeat"
  | MAJOR => "major" | LAPSED => "lapsed" | LOST => "lost"
  end.

Definition ChurnRisk_value (r : ChurnRisk) : string :=
  match r with
  | LOW => "low" | MEDIUM => "medium" | HIGH => "high" | CRITICAL => "critical"
  end.

(** [str.upper()], on the ASCII letters (the values above hold no other). *)
Definition ascii_upper (c : ascii) : ascii :=
  let n := nat_of_ascii c in
  if ((97 <=? n) && (n <=? 122))%nat then ascii_of_nat (n - 32) else c.

Fixpoint str_upper (s : string) : string :=
  match s with
  | EmptyString => EmptyString
  | String c rest => String (ascii_upper c) (str_upper rest)
  end.

(** [sep.join(parts)] *)
Fixpoint str_join (sep : string) (parts : list string) : string :=
  match parts with
  | [] => EmptyString
  | [s] => s
  | s :: rest => (s ++ sep ++ str_join sep rest)%string
  end.

(** Two decimal digits, zero-padded ([%m], [%d], and the cents below). *)
Definition pad2 (n : Z) : string :=
  if n <? 10 then ("0" ++ PyNum.str_of_int n)%string else PyNum.str_of_int n.

(** [strftime('%Y-%m-%d')] and [strftime('%Y%m%d')], for years of four
    digits. *)
Definition strftime_dashed (d : datetime.t) : string :=
  (PyNum.str_of_int (datetime.year d) ++ "-" ++ pad2 (datetime.month d)
   ++ "-" ++ pad2 (datetime.day d))%string.

Definition strftime_compact (d : datetime.t) : string :=
  (PyNum.str_of_int (datetime.year d) ++ pad2 (datetime.month d)
   ++ pad2 (datetime.day d))%string.

(** The thousands separators of the format [','] : a comma before every
    group of three digits, counted from the right. *)
Fixpoint comma_every_three (reversed_digits : list ascii) : list ascii :=
  match reversed_digits with
  | a :: b :: c :: rest =>
      match rest with
      | [] => reversed_digits
      | _ :: _ => a :: b :: c :: ","%char :: comma_every_three rest
      end
  | _ => reversed_digits
  end.

Definition group_thousands (digits : string) : string :=
  string_of_list_ascii (rev (comma_every_three (rev (list_ascii_of_string digits)))).

(** [format(x, ',.2f')]: [x] rounded to hundredths, half to even on its
    exact value. *)
Definition format_comma_2f (x : float) : string :=
  let sign (s : bool) : string := if s then "-"%string else EmptyString in
  match x with
  | S754_nan => "nan"%string
  | S754_infinity s => (sign s ++ "inf")%string
  | S754_zero s => (sign s ++ "0.00")%string
  | S754_finite s m e =>
      let hundredths :=
        if 0 <=? e then Zpos m * 100 * 2 ^ e
        else PyNum.round_half_even (Zpos m * 100) (2 ^ (- e)) in
      (sign s ++ group_thousands (PyNum.str_of_int (hundredths / 100))
       ++ "." ++ pad2 (hundredths mod 100))%string
  end.

(** A value handed to [writer.writerow]: a string, or an [int] that the
    writer turns into its decimal text. *)
Inductive csv_cell :=
| CellStr (s : string)
| CellInt (n : Z).

Definition csv_cell_text (c : csv_cell) : string :=
  match c with
  | CellStr s => s
  | CellInt n => PyNum.str_of_int n
  end.

(** The writer of the default dialect: a field is quoted when it holds a
    comma, a quote, a carriage return or a line feed; quotes are doubled;
    fields are joined by commas and the record ends with CR LF. *)
Definition quote_char : ascii := ascii_of_nat 34.
Definition carriage_return : ascii := ascii_of_nat 13.
Definition line_feed : ascii := ascii_of_nat 10.

Definition csv_special (c : ascii) : bool :=
  Ascii.eqb c ","%char || Ascii.eqb c quote_char
  || Ascii.eqb c carriage_return || Ascii.eqb c line_feed.

Fixpoint csv_has_special (s : string) : bool :=
  match s with
  | EmptyString => false
  | String c rest => csv_special c || csv_has_special rest
  end.

Fixpoint csv_double_quotes (s : string) : string :=
  match s with
  | EmptyString => EmptyString
  | String c rest =>
      if Ascii.eqb c quote_char
      then String c (String c (csv_double_quotes rest))
      else String c (csv_double_quotes rest)
  end.

Definition csv_field (s : string) : string :=
  if csv_has_special s
  then String quote_char (csv_double_quotes s ++ String quote_char EmptyString)
  else s.

Definition csv_record (cells : list csv_cell) : string :=
  (str_join "," (map (fun c => csv_field (csv_cell_text c)) cells)
   ++ String carriage_return (String line_feed EmptyString))%string.

Definition export_header : list csv_cell :=
  [ CellStr "Donor Name"; CellStr "Email"; CellStr "Last Donation Date";
    CellStr "Days Since Last Donation"; CellStr "Total Donations";
    CellStr "Lifetime Value"; CellStr "Current Stage"; CellStr "Risk Level";
    CellStr "Risk Factors"; CellStr "Recommended Action" ].

(** The row written for one donor of the roster. *)
Definition export_row (donor : DonorChurnRisk) : list csv_cell :=
  [ CellStr (cr_donor_name donor);
    CellStr (match cr_email donor with
             | Some EmptyString | None => "N/A"
             | Some e => e
             end);
    CellStr (match cr_last_donation_date donor with
             | Some d => strftime_dashed d
             | None => "Never"
             end);
    CellInt (cr_days_since_last_donation donor);
    CellInt (cr_total_donations donor);
    CellStr ("$" ++ format_comma_2f (cr_lifetime_value donor));
    CellStr (LifecycleStageEnum_value (cr_current_stage donor));
    CellStr (str_upper (ChurnRisk_value (cr_risk_level donor)));
    CellStr (str_join "; " (cr_risk_factors donor));
    CellStr (cr_recommended_action donor) ].

Record Response := mk_HTTPResponse {
  content : string;
  media_type : string;
  headers : list (string * string)
}.

(** The endpoint; [current_date] is the instant read by the analytics it
    calls and [today] the [datetime.now()] of the file name.  The text
    written to [output] grows by one record per [writerow]. *)
Definition download_at_risk_donors (db : Database) (current_date today : datetime.t)
    (organization_id : string) (risk_threshold : ChurnRisk) : option Response :=
  analytics ← get_donor_lifecycle_analytics db current_date organization_id
                true risk_threshold;
  let output :=
    fold_left (fun written donor => (written ++ csv_record (export_row donor))%string)
              (at_risk_donors analytics) (csv_record export_header) in
  Some {| content := output;
          media_type := "text/csv";
          headers :=
            [ ("Content-Disposition",
               "attachment; filename=at_risk_donors_" ++ organization_id ++ "_"
               ++ strftime_compact today ++ ".csv")%string ] |}.

End Analytics.

(** ** [get_lifecycle_snapshot] *)

(** A float literal written in decimal, [n * 10^-k]: the nearest float. *)
Definition decimal (n k : Z) : float :=
  SFdiv PyNum.prec PyNum.emax (PyNum.int_operand n) (PyNum.int_operand (10 ^ k)).

(** One row of the query: [Party] inner-joined with [Donation], restricted
    to the organization and grouped by party. *)
Record SnapshotRow := mk_SnapshotRow {
  snap_party_id : uuid;
  snap_donation_count : Z;
  snap_last_donation : option datetime.t;
  snap_total_given : option float
}.

Definition has_donation (db : Database) (p : Party) : bool :=
  match donations_of db p with
  | [] => false
  | _ :: _ => true
  end.

(** The inner join keeps the parties that have a donation. *)
Definition snapshot_results (db : Database) (organization_id : uuid)
  : list SnapshotRow :=
  map (fun p =>
         let ds := donations_of db p in
         {| snap_party_id := party_id p;
            snap_donation_count := Z.of_nat (length ds);
            snap_last_donation := sql_max (map received_date ds);
            snap_total_given := sql_sum (map intent_amount ds) |})
      (List.filter (fun p => String.eqb (party_organization_id p) organization_id
                             && has_donation db p)
                   (parties db)).

(** The five counters of the loop. *)
Record snapshot_counts := mk_snapshot_counts {
  acquisition_count : Z;
  conversion_count : Z;
  cultivation_count : Z;
  stewardship_count : Z;
  reactivation_count : Z
}.

Definition snapshot_zero : snapshot_counts :=
  {| acquisition_count := 0; conversion_count := 0; cultivation_count := 0;
     stewardship_count := 0; reactivation_count := 0 |}.

(** [total_given < n] and [total_given >= n]; comparing [None] with an [int]
    raises [TypeError]. *)
Definition given_lt (total_given : option float) (n : Z) : option bool :=
  match total_given with
  | Some v => Some (PyNum.ltb (PyNum.value_of_float v) (PyNum.value_of_int n))
  | None => None
  end.

Definition given_ge (total_given : option float) (n : Z) : option bool :=
  match total_given with
  | Some v => Some (PyNum.geb (PyNum.value_of_float v) (PyNum.value_of_int n))
  | None => None
  end.

Definition snapshot_days (now : datetime.t) (row : SnapshotRow) : Z :=
  match snap_last_donation row with
  | Some d => datetime.days (datetime.sub now d)
  | None => 999
  end.

(** The body of the loop over the results. *)
Definition snapshot_step (now : datetime.t) (c : snapshot_counts) (row : SnapshotRow)
  : option snapshot_counts :=
  let days_since_last := snapshot_days now row in
  let donation_count := snap_donation_count row in
  let total_given := snap_total_given row in
  if donation_count =? 0 then
    Some {| acquisition_count := acquisition_count c + 1;
            conversion_count := conversion_count c;
            cultivation_count := cultivation_count c;
            stewardship_count := stewardship_count c;
            reactivation_count := reactivation_count c |}
  else if donation_count =? 1 then
    Some {| acquisition_count := acquisition_count c;
            conversion_count := conversion_count c + 1;
            cultivation_count := cultivation_count c;
            stewardship_count := stewardship_count c;
            reactivation_count := reactivation_count c |}
  else
    small ← (if donation_count >? 1 then given_lt total_given 1000 else Some false);
    if (small : bool) then
      Some {| acquisition_count := acquisition_count c;
              conversion_count := conversion_count c;
              cultivation_count := cultivation_count c + 1;
              stewardship_count := stewardship_count c;
              reactivation_count := reactivation_count c |}
    else
      large ← given_ge total_given 1000;
      if (large : bool) && (days_since_last <? 365) then
        Some {| acquisition_count := acquisition_count c;
                conversion_count := conversion_count c;
                cultivation_count := cultivation_count c;
                stewardship_count := stewardship_count c + 1;
                reactivation_count := reactivation_count c |}
      else if days_since_last >? 365 then
        Some {| acquisition_count := acquisition_count c;
                conversion_count := conversion_count c;
                cultivation_count := cultivation_count c;
                stewardship_count := stewardship_count c;
                reactivation_count := reactivation_count c + 1 |}
      else
        Some {| acquisition_count := acquisition_count c;
                conversion_count := conversion_count c;
                cultivation_count := cultivation_count c + 1;
                stewardship_count := stewardship_count c;
                reactivation_count := reactivation_count c |}.

Fixpoint snapshot_loop (now : datetime.t) (rows : list SnapshotRow)
    (c : snapshot_counts) : option snapshot_counts :=
  match rows with
  | [] => Some c
  | row :: rest => c' ← snapshot_step now c row; snapshot_loop now rest c'
  end.

Record LifecycleStage := mk_LifecycleStage {
  ls_stage : string;
  ls_count : Z;
  ls_avg_days_in_stage : float;
  ls_handoff_conversion_rate : float;
  ls_sla_days : Z;
  ls_sla_status : string
}.

(** The endpoint; [now] stands for the [datetime.now()] read before the
    loop.  The three filters [segment], [channel] and [campaign_id] are
    accepted and not read.  The query hands [organization_id] to the server,
    which reads it as a UUID. *)
Definition get_lifecycle_snapshot (db : Database) (now : datetime.t)
    (organization_id : string) (segment channel campaign_id : option string)
  : option (list LifecycleStage) :=
  org ← uuid_in db organization_id;
  c ← snapshot_loop now (snapshot_results db org) snapshot_zero;
  Some [ mk_LifecycleStage "Acquisition" (acquisition_count c)
           (decimal 255 1) (decimal 423 1) 30 "green";
         mk_LifecycleStage "Conversion" (conversion_count c)
           (decimal 382 1) (decimal 678 1) 45 "green";
         mk_LifecycleStage "Cultivation" (cultivation_count c)
           (decimal 521 1) (decimal 245 1) 60 "amber";
         mk_LifecycleStage "Stewardship" (stewardship_count c)
           (decimal 1803 1) (decimal 852 1) 90 "red";
         mk_LifecycleStage "Reactivation" (reactivation_count c)
           (decimal 457 1) (decimal 189 1) 60 "amber" ].

(** ** The 2x2 matrix of strategic initiatives *)

Inductive QuadrantType := QUICK_WINS | BIG_BETS | FILL_INS | MONEY_PITS.

Global Instance QuadrantType_eq_dec : EqDecision QuadrantType :=
  ltac:(solve_decision).

Definition quadrant_code (q : QuadrantType) : nat :=
  match q with QUICK_WINS => 0 | BIG_BETS => 1 | FILL_INS => 2 | MONEY_PITS => 3 end%nat.

Definition quadrant_of_code (n : nat) : option QuadrantType :=
  match n with
  | 0 => Some QUICK_WINS | 1 => Some BIG_BETS | 2 => Some FILL_INS
  | 3 => Some MONEY_PITS | _ => None
  end%nat.

Definition quadrant_of_code_of_quadrant (q : QuadrantType)
  : quadrant_of_code (quadrant_code q) = Some q :=
  match q with
  | QUICK_WINS => eq_refl | BIG_BETS => eq_refl
  | FILL_INS => eq_refl | MONEY_PITS => eq_refl
  end.

Global Instance QuadrantType_countable : Countable QuadrantType :=
  inj_countable quadrant_code quadrant_of_code quadrant_of_code_of_quadrant.

(** The members of the enumeration, in declaration order. *)
Definition quadrant_types : list QuadrantType :=
  [QUICK_WINS; BIG_BETS; FILL_INS; MONEY_PITS].

Record StrategicInitiativeInput := mk_Initiative {
  si_id : option string;
  si_name : string;
  si_description : option string;
  strategic_alignment_score : float;
  investment_maturity_score : float;
  estimated_cost : float;
  expected_benefit : option string;
  si_quadrant : option QuadrantType;
  si_recommendation : option string
}.

Record WiseInvestorQuadrant := mk_WiseInvestorQuadrant {
  wq_quadrant : QuadrantType;
  wq_initiatives : list StrategicInitiativeInput;
  wq_total_cost : float;
  wq_average_alignment : float;
  wq_recommendation : string
}.

Record WiseInvestor2x2Response := mk_WiseInvestor2x2Response {
  wi_organization_id : string;
  wi_analysis_date : datetime.t;
  wi_quadrants : list WiseInvestorQuadrant;
  wi_total_initiatives : Z;
  wi_total_investment : float;
  wi_strategic_summary : string
}.

(** The literal [5.0] *)
Definition five : float := PyNum.float_lit 5 0.

(** Determine quadrant based on scores *)
Definition calculate_quadrant (strategy_score investment_score : float) : QuadrantType :=
  let high_strategy :=
    PyNum.geb (PyNum.value_of_float strategy_score) (PyNum.value_of_float five) in
  let high_investment :=
    PyNum.geb (PyNum.value_of_float investment_score) (PyNum.value_of_float five) in
  if high_strategy && negb high_investment then QUICK_WINS
  else if high_strategy && high_investment then BIG_BETS
  else if negb high_strategy && negb high_investment then FILL_INS
  else MONEY_PITS.

(** [d.get(key, default)] on a dictionary given by its items. *)
Fixpoint dict_get {K V : Type} `{EqDecision K} (items : list (K * V)) (key : K)
    (otherwise : V) : V :=
  match items with
  | [] => otherwise
  | (k, v) :: rest => if decide (k = key) then v else dict_get rest key otherwise
  end.

(** Generate recommendation based on quadrant *)
Definition get_quadrant_recommendation (quadrant : QuadrantType) (initiative_count : Z)
  : string :=
  let n := PyNum.str_of_int initiative_count in
  let recommendations :=
    [ (QUICK_WINS, "High Priority! " ++ n ++ " initiatives offer strong strategic value with manageable investment. Execute these first.");
      (BIG_BETS, "Strategic Focus: " ++ n ++ " initiatives require significant investment but align with strategy. Prioritize based on ROI.");
      (FILL_INS, "Low Priority: " ++ n ++ " initiatives have limited strategic value. Consider deferring.");
      (MONEY_PITS, "Caution! " ++ n ++ " initiatives require high investment with low strategic alignment. Reevaluate before proceeding.") ]%string in
  dict_get recommendations quadrant "Review carefully"%string.

(** Get specific recommendation for an initiative *)
Definition get_initiative_recommendation (quadrant : QuadrantType) : string :=
  let recommendations :=
    [ (QUICK_WINS, "Prioritize - Low investment, high strategic value");
      (BIG_BETS, "Evaluate ROI - High investment, high strategic value");
      (FILL_INS, "Consider deferring - Low value, low investment");
      (MONEY_PITS, "Reevaluate or cancel - High investment, low strategic value") ]%string in
  dict_get recommendations quadrant "Review carefully"%string.

(** The result of an endpoint that may raise [HTTPException], or
    [DataError] in a query. *)
Inductive http_result (A : Type) :=
| Returned (response : A)
| HTTPException (status_code : Z) (detail : string)
| DataError.

Arguments Returned {A} response.
Arguments HTTPException {A} status_code detail.
Arguments DataError {A}.

(** [x + y] for a running total [x] and a float [y]. *)
Definition number_add (x : PyNum.number) (y : float) : PyNum.number :=
  match x with
  | PyNum.Int n => PyNum.Float (PyNum.fadd (PyNum.float_of_int n) y)
  | PyNum.Float a => PyNum.Float (PyNum.fadd a y)
  end.

(** [round(x, ndigits)] leaves an [int] as it is when [ndigits >= 0]. *)
Definition number_round (x : PyNum.number) (ndigits : Z) : PyNum.number :=
  match x with
  | PyNum.Int n => PyNum.Int n
  | PyNum.Float a => PyNum.Float (PyNum.round a ndigits)
  end.

(** The coercion of a number stored in a [float] field of a response. *)
Definition number_to_float (x : PyNum.number) : float :=
  match x with
  | PyNum.Int n => PyNum.float_of_int n
  | PyNum.Float a => a
  end.

(** The accumulators of the first loop: [quadrant_map] is a
    [defaultdict(list)]. *)
Record matrix_state := mk_matrix_state {
  quadrant_map : gmap QuadrantType (list StrategicInitiativeInput);
  total_investment : PyNum.number
}.

Definition quadrant_list (m : gmap QuadrantType (list StrategicInitiativeInput))
    (q : QuadrantType) : list StrategicInitiativeInput :=
  default [] (m !! q).

(** The initiative after its two assignments ([initiative.quadrant] and
    [initiative.recommendation]). *)
Definition place_initiative (initiative : StrategicInitiativeInput)
  : StrategicInitiativeInput :=
  let quadrant := calculate_quadrant (strategic_alignment_score initiative)
                    (investment_maturity_score initiative) in
  {| si_id := si_id initiative;
     si_name := si_name initiative;
     si_description := si_description initiative;
     strategic_alignment_score := strategic_alignment_score initiative;
     investment_maturity_score := investment_maturity_score initiative;
     estimated_cost := estimated_cost initiative;
     expected_benefit := expected_benefit initiative;
     si_quadrant := Some quadrant;
     si_recommendation := Some (get_initiative_recommendation quadrant) |}.

Definition matrix_step (st : matrix_state) (initiative : StrategicInitiativeInput)
  : matrix_state :=
  let quadrant := calculate_quadrant (strategic_alignment_score initiative)
                    (investment_maturity_score initiative) in
  let placed := place_initiative initiative in
  {| quadrant_map :=
       <[quadrant := quadrant_list (quadrant_map st) quadrant ++ [placed]]>
         (quadrant_map st);
     total_investment := number_add (total_investment st) (estimated_cost initiative) |}.

Section WiseInvestor.

(** The builtin [sum] over floats: plain left-to-right addition in some
    interpreter versions, compensated summation in others.  No property
    below depends on which. *)
Variable py_sum : list float -> float.

(** The block of one quadrant, when it has initiatives. *)
Definition quadrant_block (m : gmap QuadrantType (list StrategicInitiativeInput))
    (quadrant_type : QuadrantType) : list WiseInvestorQuadrant :=
  let initiatives_in_quadrant := quadrant_list m quadrant_type in
  match initiatives_in_quadrant with
  | [] => []
  | _ :: _ =>
      let total_cost := py_sum (map estimated_cost initiatives_in_quadrant) in
      let avg_alignment :=
        SFdiv PyNum.prec PyNum.emax
          (py_sum (map strategic_alignment_score initiatives_in_quadrant))
          (PyNum.float_of_int (Z.of_nat (length initiatives_in_quadrant))) in
      [ {| wq_quadrant := quadrant_type;
           wq_initiatives := initiatives_in_quadrant;
           wq_total_cost := PyNum.round total_cost 2;
           wq_average_alignment := PyNum.round avg_alignment 1;
           wq_recommendation :=
             get_quadrant_recommendation quadrant_type
               (Z.of_nat (length initiatives_in_quadrant)) |} ]
  end.

Definition strategic_summary_of (quick_wins_count big_bets_count money_pits_count : Z)
  : string :=
  let s0 := ("Portfolio Analysis: " ++ PyNum.str_of_int quick_wins_count
             ++ " Quick Wins, " ++ PyNum.str_of_int big_bets_count
             ++ " Big Bets, " ++ PyNum.str_of_int money_pits_count
             ++ " Money Pits. ")%string in
  let s1 := if quick_wins_count >? 0
            then (s0 ++ "Prioritize Quick Wins for immediate strategic value. ")%string
            else s0 in
  if money_pits_count >? 0
  then (s1 ++ "⚠️ Review " ++ PyNum.str_of_int money_pits_count
        ++ " Money Pit initiatives.")%string
  else s1.

(** The endpoint; [analysis_date] is the [datetime.utcnow()] of the
    response.  The lookup hands [organization_id] to the server, which reads
    it as a UUID. *)
Definition analyze_strategic_initiatives (db : Database)
    (analysis_date : datetime.t) (organization_id : string)
    (initiatives : list StrategicInitiativeInput)
  : http_result WiseInvestor2x2Response :=
  match uuid_in db organization_id with
  | None => DataError
  | Some id =>
  match List.filter (fun o => String.eqb (organization_pk o) id)
                    (organizations db) with
  | [] => HTTPException 404 "Organization not found"
  | org :: _ =>
      let st := fold_left matrix_step initiatives
                  {| quadrant_map := ∅; total_investment := PyNum.Int 0 |} in
      let quadrants := flat_map (quadrant_block (quadrant_map st)) quadrant_types in
      let quick_wins_count := Z.of_nat (length (quadrant_list (quadrant_map st) QUICK_WINS)) in
      let big_bets_count := Z.of_nat (length (quadrant_list (quadrant_map st) BIG_BETS)) in
      let money_pits_count := Z.of_nat (length (quadrant_list (quadrant_map st) MONEY_PITS)) in
      Returned
        {| wi_organization_id := organization_id;
           wi_analysis_date := analysis_date;
           wi_quadrants := quadrants;
           wi_total_initiatives := Z.of_nat (length initiatives);
           wi_total_investment :=
             number_to_float (number_round (total_investment st) 2);
           wi_strategic_summary :=
             strategic_summary_of quick_wins_count big_bets_count money_pits_count |}
  end
  end.

End WiseInvestor.

(** ** The rules as the specification words them *)

Module LifecycleSpec.

(** The ordered rules of the stage classifier: a condition and the stage it
    yields; the first rule whose condition holds wins, and [REPEAT] is the
    stage when none does. *)
Definition rules (donation_count days_since_last_donation : Z) (lifetime_value : float)
  : list (bool * LifecycleStageEnum) :=
  [ (donation_count =? 0, PROSPECT);
    (donation_count =? 1,
       if 365 <? days_since_last_donation then LOST else FIRST_TIME);
    (730 <=? days_since_last_donation, LOST);
    (365 <=? days_since_last_donation, LAPSED);
    (PyNum.geb (PyNum.value_of_float lifetime_value) (PyNum.value_of_int 5000), MAJOR) ].

Fixpoint first_match (rs : list (bool * LifecycleStageEnum))
    (otherwise : LifecycleStageEnum) : LifecycleStageEnum :=
  match rs with
  | [] => otherwise
  | (cond, stage) :: rest => if cond then stage else first_match rest otherwise
  end.

Definition stage (donation_count days_since_last_donation : Z) (lifetime_value : float)
  : LifecycleStageEnum :=
  first_match (rules donation_count days_since_last_donation lifetime_value) REPEAT.

End LifecycleSpec.

Module ChurnSpec.

(** One row of the scoring table: whether the rule is triggered, its weight,
    and the factor string reported for it. *)
Record rule := mk_rule {
  triggered : bool;
  weight : Z;
  factor : string
}.

Definition table (days_since_last_donation donation_count : Z)
    (avg_donation_interval_days lifetime_value : float) : list rule :=
  let d := days_since_last_donation in
  [ (* Long inactivity *)
    {| triggered := 365 <=? d;
       weight := 40;
       factor := no_donation_factor d "12+ months" |};
    (* Medium inactivity *)
    {| triggered := (180 <=? d) && (d <? 365);
       weight := 20;
       factor := no_donation_factor d "6+ months" |};
    (* Short inactivity *)
    {| triggered := (90 <=? d) && (d <? 180);
       weight := 10;
       factor := no_donation_factor d "3+ months" |};
    (* Overdue vs. pattern *)
    {| triggered :=
         PyNum.gtb (PyNum.value_of_float avg_donation_interval_days) (PyNum.value_of_int 0)
         && PyNum.gtb (PyNum.value_of_int d)
              (PyNum.value_of_float (PyNum.fmul avg_donation_interval_days one_and_a_half));
       weight := 25;
       factor := overdue_factor |};
    (* Thin history *)
    {| triggered := donation_count <? 3;
       weight := 15;
       factor := limited_factor |};
    (* High-value inactivity *)
    {| triggered :=
         PyNum.geb (PyNum.value_of_float lifetime_value) (PyNum.value_of_int 5000)
         && (180 <=? d);
       weight := 20;
       factor := high_value_factor |} ].

Definition fired (days_since_last_donation donation_count : Z)
    (avg_donation_interval_days lifetime_value : float) : list rule :=
  List.filter triggered
    (table days_since_last_donation donation_count avg_donation_interval_days lifetime_value).

Definition score (rs : list rule) : Z := fold_right Z.add 0 (map weight rs).

Definition tier (total : Z) : ChurnRisk :=
  if 70 <=? total then CRITICAL
  else if 50 <=? total then HIGH
  else if 30 <=? total then MEDIUM
  else LOW.

End ChurnSpec.

(** A factor of the inactivity band: one of the three "No donation in ..."
    strings. *)
Definition is_inactivity_factor (s : string) : bool :=
  String.prefix "No donation in " s.

(** ** Notions used by the statements *)

(** What the loop computes for one row, named for the statements below. *)
Definition avg_frequency_value (donor : DonorStats) : float :=
  default (S754_zero false) (avg_frequency_of donor).

Definition stage_of_donor (current_date : datetime.t) (donor : DonorStats)
  : LifecycleStageEnum :=
  calculate_lifecycle_stage_advanced (donation_count donor) (last_donation_date donor)
    (or_zero (lifetime_value donor)) (days_since_last_of current_date donor).

Definition risk_of_donor (current_date : datetime.t) (donor : DonorStats)
  : ChurnRisk * list string :=
  calculate_churn_risk_advanced (days_since_last_of current_date donor)
    (donation_count donor) (avg_frequency_value donor) (or_zero (lifetime_value donor)).

(** The donor's risk tier is at or above the threshold. *)
Definition qualifies (current_date : datetime.t) (risk_threshold : ChurnRisk)
    (donor : DonorStats) : bool :=
  risk_order (fst (risk_of_donor current_date donor)) >=? risk_order risk_threshold.

Definition stage_entry (current_date : datetime.t) (donor : DonorStats) : StageDonor :=
  {| sd_donor_id := donor_id donor;
     sd_donor_name := donor_name donor;
     sd_donation_count := donation_count donor;
     sd_lifetime_value := or_zero (lifetime_value donor);
     sd_days_since_last := days_since_last_of current_date donor;
     sd_last_donation_date := last_donation_date donor;
     sd_avg_frequency := avg_frequency_value donor |}.

(** The number of rows classified into [stage]. *)
Definition stage_count (current_date : datetime.t) (stage : LifecycleStageEnum)
    (rows : list DonorStats) : Z :=
  Z.of_nat (length (List.filter
                      (fun d => bool_decide (stage_of_donor current_date d = stage)) rows)).

(** The database without the parties of the organizations other than the
    one that [organization_id] denotes. *)
Definition restrict_parties (db : Database) (organization_id : string) : Database :=
  {| organizations := organizations db;
     parties :=
       List.filter (fun p => bool_decide (uuid_in db organization_id
                                          = Some (party_organization_id p)))
                   (parties db);
     donations := donations db;
     contact_points := contact_points db;
     uuid_in := uuid_in db |}.

(** The donors that the snapshot counts under Conversion, Cultivation,
    Stewardship and Reactivation. *)
Definition snapshot_conversion (row : SnapshotRow) : bool :=
  snap_donation_count row =? 1.

Definition snapshot_cultivation (now : datetime.t) (row : SnapshotRow) : bool :=
  (1 <? snap_donation_count row)
  && match snap_total_given row with
     | Some v =>
         PyNum.ltb (PyNum.value_of_float v) (PyNum.value_of_int 1000)
         || (snapshot_days now row =? 365)
         || (negb (PyNum.geb (PyNum.value_of_float v) (PyNum.value_of_int 1000))
             && (snapshot_days now row <? 365))
     | None => false
     end.

Definition snapshot_stewardship (now : datetime.t) (row : SnapshotRow) : bool :=
  (1 <? snap_donation_count row)
  && match snap_total_given row with
     | Some v => PyNum.geb (PyNum.value_of_float v) (PyNum.value_of_int 1000)
     | None => false
     end
  && (snapshot_days now row <? 365).

Definition snapshot_reactivation (now : datetime.t) (row : SnapshotRow) : bool :=
  (1 <? snap_donation_count row)
  && match snap_total_given row with
     | Some v => negb (PyNum.ltb (PyNum.value_of_float v) (PyNum.value_of_int 1000))
     | None => false
     end
  && (365 <? snapshot_days now row).

(** The initiatives that fall into [quadrant], in input order. *)
Definition in_quadrant (quadrant : QuadrantType)
    (initiatives : list StrategicInitiativeInput) : list StrategicInitiativeInput :=
  List.filter (fun i => bool_decide
                          (calculate_quadrant (strategic_alignment_score i)
                             (investment_maturity_score i) = quadrant))
              initiatives.


(** The party [id] of the organization has a donation received in [year]. *)
Definition gave_in_year (db : Database) (org : uuid) (year : Z) (id : uuid) : Prop :=
  exists (p : Party) (d : Donation),
    In p (parties db) /\ In d (donations db)
    /\ party_id p = id /\ party_organization_id p = org
    /\ donation_party_id d = id /\ datetime.year (received_date d) = year.

(** ** Reading a UUID

    The texts that a PostgreSQL server reads as a UUID: sixteen bytes of two
    hexadecimal digits each, in either case; a hyphen may follow every
    second byte but the last; the whole may stand in braces.  The example
    database reads its parameters this way. *)

Definition is_hex_digit (c : ascii) : bool :=
  let n := nat_of_ascii c in
  ((48 <=? n) && (n <=? 57) || (65 <=? n) && (n <=? 70)
   || (97 <=? n) && (n <=? 102))%nat.

Definition ascii_lower (c : ascii) : ascii :=
  let n := nat_of_ascii c in
  if ((65 <=? n) && (n <=? 90))%nat then ascii_of_nat (n + 32) else c.

(** Reads [count] bytes, the first of them being byte number [i]; gives
    their digits and what follows them. *)
Fixpoint read_uuid_bytes (count i : nat) (src : string) : option (string * string) :=
  match count with
  | O => Some (EmptyString, src)
  | S count' =>
      match src with
      | String a (String b rest) =>
          if is_hex_digit a && is_hex_digit b then
            let rest' :=
              match rest with
              | String "-" after => if Nat.odd i && (i <? 15)%nat then after else rest
              | _ => rest
              end in
            match read_uuid_bytes count' (S i) rest' with
            | Some (digits, tail) =>
                Some (String (ascii_lower a) (String (ascii_lower b) digits), tail)
            | None => None
            end
          else None
      | _ => None
      end
  end.

Definition uuid_text (digits : string) : uuid :=
  (substring 0 8 digits ++ "-" ++ substring 8 4 digits ++ "-"
   ++ substring 12 4 digits ++ "-" ++ substring 16 4 digits ++ "-"
   ++ substring 20 12 digits)%string.

Definition string_to_uuid (source : string) : option uuid :=
  let '(braces, src) :=
    match source with
    | String "{" rest => (true, rest)
    | _ => (false, source)
    end in
  match read_uuid_bytes 16 0 src with
  | Some (digits, tail) =>
      let closed :=
        if (braces : bool) then
          match tail with
          | String "}" after => Some after
          | _ => None
          end
        else Some tail in
      match closed with
      | Some EmptyString => Some (uuid_text digits)
      | _ => None
      end
  | None => None
  end.

(** ** An example database

    Two organizations.  In the first, Ann gave in 2025 and in 2026, Bob in
    2024 and in 2025, and Cy never: on 3 November 2026 the three are at
    medium, critical and high risk.  In the second, Dee gave in 2025 and
    twice in 2026, Eli and Fay once each in the autumn of 2026: the three
    are at low risk. *)

Definition midnight (y m d : Z) : datetime.t := datetime.mk y m d 0 0 0 0.

Definition example_now : datetime.t := datetime.mk 2026 11 3 12 0 0 0.

Definition example_org : uuid := "11111111-1111-1111-1111-111111111111"%string.
Definition steady_org : uuid := "22222222-2222-2222-2222-222222222222"%string.
Definition ann : uuid := "aaaaaaaa-aaaa-aaaa-aaaa-aaaaaaaaaaaa"%string.
Definition bob : uuid := "bbbbbbbb-bbbb-bbbb-bbbb-bbbbbbbbbbbb"%string.
Definition cy : uuid := "cccccccc-cccc-cccc-cccc-cccccccccccc"%string.
Definition dee : uuid := "dddddddd-dddd-dddd-dddd-dddddddddddd"%string.
Definition eli : uuid := "eeeeeeee-eeee-eeee-eeee-eeeeeeeeeeee"%string.
Definition fay : uuid := "ffffffff-ffff-ffff-ffff-ffffffffffff"%string.

Definition example_db : Database :=
  {| organizations :=
       [ mk_Organization example_org "Harbour Trust";
         mk_Organization steady_org "Orchard Fund" ];
     parties :=
       [ mk_Party ann example_org "Ann"; mk_Party bob example_org "Bob";
         mk_Party cy example_org "Cy"; mk_Party dee steady_org "Dee";
         mk_Party eli steady_org "Eli"; mk_Party fay steady_org "Fay" ];
     donations :=
       [ mk_Donation ann (midnight 2025 3 1) (PyNum.float_of_int 100);
         mk_Donation ann (midnight 2026 3 1) (PyNum.float_of_int 100);
         mk_Donation bob (midnight 2024 6 1) (PyNum.float_of_int 6000);
         mk_Donation bob (midnight 2025 2 1) (PyNum.float_of_int 10);
         mk_Donation dee (midnight 2025 6 1) (PyNum.float_of_int 100);
         mk_Donation dee (midnight 2026 3 1) (PyNum.float_of_int 100);
         mk_Donation dee (midnight 2026 10 1) (PyNum.float_of_int 100);
         mk_Donation eli (midnight 2026 9 15) (PyNum.float_of_int 50);
         mk_Donation fay (midnight 2026 10 20) (PyNum.float_of_int 20) ];
     contact_points :=
       [ mk_ContactPoint "00000000-0000-0000-0000-000000000001" example_org ann
           "email" "email" "ann@example.org" (Some true) None ];
     uuid_in := string_to_uuid |}.

(** Four initiatives: two Quick Wins, one Big Bet, one Money Pit. *)
Definition example_initiative (name : string) (strategy investment cost : Z)
  : StrategicInitiativeInput :=
  mk_Initiative None name None (PyNum.float_of_int strategy)
    (PyNum.float_of_int investment) (PyNum.float_of_int cost) None None None.

Definition example_initiatives : list StrategicInitiativeInput :=
  [ example_initiative "a" 7 2 100; example_initiative "b" 5 5 250;
    example_initiative "c" 1 9 30; example_initiative "d" 8 1 20 ].

(** * Properties *)

(** Case analysis on the integer tests of the goal. *)
Ltac to_leb_ltb :=
  repeat first [ rewrite Z.geb_leb | rewrite Z.gtb_ltb ].

Ltac case_eqb :=
  match goal with |- context [(?n =? ?m)%Z] => destruct (Z.eqb_spec n m) end.

Ltac case_leb :=
  match goal with |- context [(?n <=? ?m)%Z] => destruct (Z.leb_spec n m) end.

Ltac case_ltb :=
  match goal with |- context [(?n <? ?m)%Z] => destruct (Z.ltb_spec n m) end.

Ltac z_bools :=
  to_leb_ltb; repeat first [ case_leb | case_ltb | case_eqb ]; try lia.

Ltac num_bools :=
  repeat match goal with
    | |- context [PyNum.gtb ?a ?b] => destruct (PyNum.gtb a b)
    | |- context [PyNum.geb ?a ?b] => destruct (PyNum.geb a b)
    end.

(** C1: the classifier returns, on every donor aggregate, the stage given by
    the ordered first-match rules of the specification. *)
Theorem lifecycle_stage_first_match :
  forall (donation_count days_since_last : Z) (last_donation_date : option datetime.t)
         (lifetime_value : float),
    calculate_lifecycle_stage_advanced donation_count last_donation_date
      lifetime_value days_since_last
    = LifecycleSpec.stage donation_count days_since_last lifetime_value.
Proof.
  intros c d last v.
  unfold calculate_lifecycle_stage_advanced, LifecycleSpec.stage, LifecycleSpec.rules.
  cbn [LifecycleSpec.first_match].
  destruct (PyNum.geb _ _); z_bools; reflexivity.
Qed.

(** C10: the stage does not depend on the [last_donation_date] argument. *)
Theorem lifecycle_stage_ignores_last_donation_date :
  forall (donation_count days_since_last : Z) (lifetime_value : float)
         (date1 date2 : option datetime.t),
    calculate_lifecycle_stage_advanced donation_count date1 lifetime_value days_since_last
    = calculate_lifecycle_stage_advanced donation_count date2 lifetime_value days_since_last.
Proof. intros. reflexivity. Qed.

(** C2: on every input the scorer's total is the sum of the weights of
    exactly the triggered rows of the table, its factors are the factor
    strings of those rows in table order, and its tier is the one the total
    maps to. *)
Theorem churn_risk_is_table_sum :
  forall (days_since_last donation_count : Z) (avg_donation_frequency lifetime_value : float),
    let hits := ChurnSpec.fired days_since_last donation_count
                  avg_donation_frequency lifetime_value in
    risk_score (churn_risk_state days_since_last donation_count
                  avg_donation_frequency lifetime_value) = ChurnSpec.score hits
    /\ calculate_churn_risk_advanced days_since_last donation_count
         avg_donation_frequency lifetime_value
       = (ChurnSpec.tier (ChurnSpec.score hits), map ChurnSpec.factor hits).
Proof.
  intros d c a v hits. subst hits.
  unfold calculate_churn_risk_advanced, churn_risk_state, ChurnSpec.fired, ChurnSpec.table.
  unfold high_value_risk, limited_engagement, pattern_deviation, inactivity_period.
  num_bools; z_bools; cbn; split; reflexivity.
Qed.

(** *** Monotonicity in the recency gap *)

Lemma gtb_int_mono (d1 d2 : Z) (v : PyNum.value) :
  d1 <= d2 ->
  PyNum.gtb (PyNum.value_of_int d1) v = true ->
  PyNum.gtb (PyNum.value_of_int d2) v = true.
Proof.
  intros Hle. unfold PyNum.gtb, PyNum.value_of_int.
  destruct v as [ | s | m e]; cbn; try easy.
  unfold PyNum.dyadic_compare.
  set (k := 0 - Z.min 0 e). set (rhs := m * 2 ^ (e - Z.min 0 e)).
  assert (0 < 2 ^ k) by (apply Z.pow_pos_nonneg; lia).
  destruct (Z.compare_spec (d1 * 2 ^ k) rhs); try discriminate.
  intros _.
  destruct (Z.compare_spec (d2 * 2 ^ k) rhs); try reflexivity; nia.
Qed.

Lemma risk_score_flag (f : string) (w : Z) (st : risk_state) :
  risk_score (flag f w st) = risk_score st + w.
Proof. reflexivity. Qed.

Lemma inactivity_period_mono (d1 d2 : Z) (st1 st2 : risk_state) :
  d1 <= d2 -> risk_score st1 <= risk_score st2 ->
  risk_score (inactivity_period d1 st1) <= risk_score (inactivity_period d2 st2).
Proof.
  intros Hd Hs. unfold inactivity_period.
  z_bools; rewrite ?risk_score_flag; lia.
Qed.

Lemma pattern_deviation_mono (d1 d2 : Z) (avg : float) (st1 st2 : risk_state) :
  d1 <= d2 -> risk_score st1 <= risk_score st2 ->
  risk_score (pattern_deviation d1 avg st1) <= risk_score (pattern_deviation d2 avg st2).
Proof.
  intros Hd Hs. unfold pattern_deviation.
  destruct (PyNum.gtb (PyNum.value_of_float avg) _); [ | exact Hs].
  destruct (PyNum.gtb (PyNum.value_of_int d1) _) eqn:H1.
  - rewrite (gtb_int_mono d1 d2 _ Hd H1). rewrite !risk_score_flag. lia.
  - destruct (PyNum.gtb (PyNum.value_of_int d2) _); rewrite ?risk_score_flag; lia.
Qed.

Lemma limited_engagement_mono (c : Z) (st1 st2 : risk_state) :
  risk_score st1 <= risk_score st2 ->
  risk_score (limited_engagement c st1) <= risk_score (limited_engagement c st2).
Proof.
  intros Hs. unfold limited_engagement.
  destruct (c <? 3); rewrite ?risk_score_flag; lia.
Qed.

Lemma high_value_risk_mono (d1 d2 : Z) (v : float) (st1 st2 : risk_state) :
  d1 <= d2 -> risk_score st1 <= risk_score st2 ->
  risk_score (high_value_risk d1 v st1) <= risk_score (high_value_risk d2 v st2).
Proof.
  intros Hd Hs. unfold high_value_risk.
  destruct (PyNum.geb _ _); cbn [andb]; [ | exact Hs].
  z_bools; rewrite ?risk_score_flag; lia.
Qed.

Lemma churn_risk_state_mono (d1 d2 c : Z) (a v : float) :
  d1 <= d2 ->
  risk_score (churn_risk_state d1 c a v) <= risk_score (churn_risk_state d2 c a v).
Proof.
  intros Hd. unfold churn_risk_state.
  apply high_value_risk_mono; [exact Hd | ].
  apply limited_engagement_mono.
  apply pattern_deviation_mono; [exact Hd | ].
  apply inactivity_period_mono; [exact Hd | lia].
Qed.

(** C4: with the other three inputs fixed, the risk score does not decrease
    when [days_since_last] grows. *)
Theorem risk_score_monotone_in_days :
  forall (d1 d2 donation_count : Z) (avg_donation_frequency lifetime_value : float),
    d1 <= d2 ->
    risk_score (churn_risk_state d1 donation_count avg_donation_frequency lifetime_value)
    <= risk_score (churn_risk_state d2 donation_count avg_donation_frequency lifetime_value).
Proof. intros d1 d2 c a v Hd. apply churn_risk_state_mono. exact Hd. Qed.

Lemma risk_score_monotone_in_days_witness :
  364 <= 365
  /\ risk_score (churn_risk_state 364 2 (PyNum.float_of_int 30) (PyNum.float_of_int 6000))
     <= risk_score (churn_risk_state 365 2 (PyNum.float_of_int 30) (PyNum.float_of_int 6000)).
Proof.
  split; [lia | apply (risk_score_monotone_in_days 364 365); lia].
Defined.

(** The three band boundaries named by the specification. *)
Corollary risk_score_band_boundaries :
  forall (donation_count : Z) (avg_donation_frequency lifetime_value : float),
    let score d := risk_score (churn_risk_state d donation_count
                                 avg_donation_frequency lifetime_value) in
    score 89 <= score 90 /\ score 179 <= score 180 /\ score 364 <= score 365.
Proof.
  intros c a v score. subst score. cbv beta.
  repeat split; apply churn_risk_state_mono; lia.
Qed.

(** *** Bounds on the score and on the factors *)

Lemma is_inactivity_no_donation (d : Z) (span : string) :
  is_inactivity_factor (no_donation_factor d span) = true.
Proof.
  unfold is_inactivity_factor, no_donation_factor.
  generalize (PyNum.str_of_int d ++ " days (" ++ span ++ ")")%string.
  intros rest. destruct rest; reflexivity.
Qed.

(** C9: the score never exceeds 100, at most four factors are reported, and
    at most one of them is an inactivity-band factor. *)
Theorem risk_score_and_factors_bounded :
  forall (days_since_last donation_count : Z) (avg_donation_frequency lifetime_value : float),
    let st := churn_risk_state days_since_last donation_count
                avg_donation_frequency lifetime_value in
    risk_score st <= 100
    /\ (length (snd (calculate_churn_risk_advanced days_since_last donation_count
                       avg_donation_frequency lifetime_value)) <= 4)%nat
    /\ (length (List.filter is_inactivity_factor
                  (snd (calculate_churn_risk_advanced days_since_last donation_count
                          avg_donation_frequency lifetime_value))) <= 1)%nat.
Proof.
  intros d c a v st. subst st.
  unfold calculate_churn_risk_advanced, churn_risk_state.
  unfold high_value_risk, limited_engagement, pattern_deviation, inactivity_period.
  num_bools; z_bools; cbn -[no_donation_factor is_inactivity_factor];
    rewrite ?is_inactivity_no_donation; cbn; lia.
Qed.

(** The bound of C9 is reached. *)
Example risk_score_reaches_100 :
  risk_score (churn_risk_state 400 2 (PyNum.float_of_int 30) (PyNum.float_of_int 6000)) = 100.
Proof. vm_compute. reflexivity. Qed.

(** *** The scenarios of the specification *)

(** One gift of 100, 800 days ago. *)
Example scenario_single_old_gift :
  calculate_lifecycle_stage_advanced 1 None (PyNum.float_of_int 100) 800 = LOST
  /\ calculate_churn_risk_advanced 800 1 (S754_zero false) (PyNum.float_of_int 100)
     = (HIGH, ["No donation in 800 days (12+ months)";
               "Limited giving history (< 3 donations)"]%string).
Proof. split; vm_compute; reflexivity. Qed.

(** Three gifts of 2000, the last one 10 days ago, 390 days after the
    first. *)
Example scenario_recent_major_donor :
  exists avg : float,
    PyNum.int_truediv 390 2 = Some avg
    /\ calculate_lifecycle_stage_advanced 3 None (PyNum.float_of_int 6000) 10 = MAJOR
    /\ calculate_churn_risk_advanced 10 3 avg (PyNum.float_of_int 6000) = (LOW, []).
Proof. eexists. repeat split; vm_compute; reflexivity. Qed.

(** No gift at all: the recency gap is the sentinel. *)
Example scenario_prospect :
  calculate_lifecycle_stage_advanced 0 None (S754_zero false) 999999 = PROSPECT
  /\ calculate_churn_risk_advanced 999999 0 (S754_zero false) (S754_zero false)
     = (HIGH, ["No donation in 999999 days (12+ months)";
               "Limited giving history (< 3 donations)"]%string).
Proof. split; vm_compute; reflexivity. Qed.

(** The tier cuts are inclusive. *)
Example risk_tier_boundaries :
  map risk_tier [70; 69; 50; 49; 30; 29] = [CRITICAL; HIGH; HIGH; MEDIUM; MEDIUM; LOW].
Proof. reflexivity. Qed.

(** *** Precedence of the zero-donation rule *)

(** C3, as stated, fails: a donor without any donation is a prospect, also
    with the sentinel recency gap 999999. *)
Lemma lost_regardless_of_count_counterexample :
  ~ (forall (donation_count days_since_last : Z) (last : option datetime.t)
            (lifetime_value : float),
        730 <= days_since_last ->
        calculate_lifecycle_stage_advanced donation_count last lifetime_value
          days_since_last = LOST).
Proof.
  intros H. specialize (H 0 999999 None (S754_zero false)).
  assert (Hs : 730 <= 999999) by lia.
  specialize (H Hs). vm_compute in H. discriminate H.
Qed.

(** C3, amended: with [days_since_last >= 730] the stage is [LOST] unless
    [donation_count] is 0, where it is [PROSPECT]; it is never [LAPSED]. *)
Theorem lost_after_730_days_unless_prospect :
  forall (donation_count days_since_last : Z) (last : option datetime.t)
         (lifetime_value : float),
    730 <= days_since_last ->
    let stage := calculate_lifecycle_stage_advanced donation_count last
                   lifetime_value days_since_last in
    (donation_count <> 0 -> stage = LOST)
    /\ (donation_count = 0 -> stage = PROSPECT)
    /\ stage <> LAPSED.
Proof.
  intros c d last v Hd stage. subst stage.
  unfold calculate_lifecycle_stage_advanced.
  destruct (PyNum.geb _ _); z_bools; repeat split; intros; congruence.
Qed.

Lemma lost_after_730_days_unless_prospect_witness :
  730 <= 800
  /\ calculate_lifecycle_stage_advanced 1 None (PyNum.float_of_int 100) 800 = LOST.
Proof.
  split; [lia | ].
  apply (lost_after_730_days_unless_prospect 1 800 None (PyNum.float_of_int 100)); lia.
Defined.

(** *** The insertion sort *)

Section InsertionSortFacts.
Context {A K : Type} (key : A -> K) (lt : K -> K -> bool).

Lemma insert_sorted_Permutation (x : A) (l : list A) :
  Permutation (insert_sorted key lt x l) (x :: l).
Proof.
  induction l as [ | y l IH]; cbn [insert_sorted]; [reflexivity | ].
  destruct (lt (key x) (key y)); [reflexivity | ].
  rewrite IH. apply perm_swap.
Qed.

Lemma fold_insert_Permutation (l acc : list A) :
  Permutation (fold_left (fun acc x => insert_sorted key lt x acc) l acc) (l ++ acc).
Proof.
  revert acc. induction l as [ | x l IH]; intros acc; cbn [fold_left app]; [reflexivity | ].
  rewrite IH, insert_sorted_Permutation. symmetry. apply Permutation_middle.
Qed.

End InsertionSortFacts.

(** The insertion sort rearranges its list, as every sort does. *)
Lemma insertion_sort_Permutation (A K : Type) (key : A -> K) (lt : K -> K -> bool)
    (reverse : bool) (l : list A) :
  Permutation (insertion_sort A K key lt reverse l) l.
Proof.
  unfold insertion_sort, insertion_sort_with, insertion_sort_ascending.
  destruct reverse.
  - rewrite <- Permutation_rev, fold_insert_Permutation, app_nil_r.
    symmetry. apply Permutation_rev.
  - rewrite fold_insert_Permutation, app_nil_r. reflexivity.
Qed.

(** *** The loop over the donors *)

Lemma avg_frequency_total (donor : DonorStats) :
  avg_frequency_of donor = Some (avg_frequency_value donor).
Proof.
  unfold avg_frequency_value, avg_frequency_of.
  destruct (Z.gtb_spec (donation_count donor) 1) as [Hc | Hc]; [ | reflexivity].
  destruct (first_donation_date donor), (last_donation_date donor); try reflexivity.
  unfold PyNum.int_truediv.
  destruct (Z.eqb_spec (donation_count donor - 1) 0); [lia | reflexivity].
Qed.

(** [models.ContactPoint] declares no column [contact_value]: the e-mail
    lookup raises before it reads any row. *)
Lemma email_query_raises (db : Database) (donor : uuid) : email_query db donor = None.
Proof. reflexivity. Qed.

(** One round of the loop raises for a donor that goes on the roster and
    files every other donor under its stage. *)
Lemma process_donor_spec (db : Database) (inc : bool) (thr : ChurnRisk)
    (now : datetime.t) (st : loop_state) (donor : DonorStats) :
  process_donor db inc thr now st donor
  = if inc && qualifies now thr donor then None
    else Some {| donors_by_stage :=
                   <[stage_of_donor now donor :=
                       stage_list (donors_by_stage st) (stage_of_donor now donor)
                       ++ [stage_entry now donor]]> (donors_by_stage st);
                 at_risk := at_risk st |}.
Proof.
  unfold process_donor. rewrite avg_frequency_total. cbn [mbind option_bind].
  unfold qualifies, stage_entry, risk_of_donor, stage_of_donor.
  unfold calculate_churn_risk_advanced. cbn [fst snd].
  destruct (inc && _); [ | reflexivity].
  rewrite email_query_raises. reflexivity.
Qed.

Lemma count_donors_insert (m : gmap LifecycleStageEnum (list StageDonor))
    (k : LifecycleStageEnum) (v : list StageDonor) :
  count_donors (<[k := v]> m)
  = count_donors m - Z.of_nat (length (stage_list m k)) + Z.of_nat (length v).
Proof.
  unfold count_donors, stage_list.
  rewrite <- (insert_delete_eq m k v).
  rewrite map_fold_insert_L; [ | intros; cbv beta; lia | apply lookup_delete_eq].
  destruct (m !! k) as [l | ] eqn:E; cbn [default].
  - rewrite (map_fold_delete_L _ _ k l m); [cbv beta; unfold id; lia | intros; cbv beta; lia | exact E].
  - rewrite (delete_id m k E). cbn. lia.
Qed.

Lemma stage_list_insert (m : gmap LifecycleStageEnum (list StageDonor))
    (k s : LifecycleStageEnum) (v : list StageDonor) :
  stage_list (<[k := v]> m) s = if bool_decide (k = s) then v else stage_list m s.
Proof.
  unfold stage_list. case_bool_decide as E.
  - subst. rewrite lookup_insert_eq. reflexivity.
  - rewrite lookup_insert_ne; [reflexivity | exact E].
Qed.

(** With [include_at_risk] set, the loop raises as soon as a row
    qualifies. *)
Lemma donor_loop_raises (db : Database) (thr : ChurnRisk) (now : datetime.t)
    (rows : list DonorStats) (st : loop_state) :
  existsb (qualifies now thr) rows = true ->
  donor_loop db true thr now rows st = None.
Proof.
  revert st. induction rows as [ | donor rows IH]; intros st Hq; [discriminate Hq | ].
  cbn [donor_loop]. rewrite process_donor_spec. cbn [andb existsb] in *.
  destruct (qualifies now thr donor); [reflexivity | ].
  cbn [mbind option_bind orb] in *. apply IH. exact Hq.
Qed.

(** Otherwise it returns: the roster is left as it was, and every row is
    filed under its stage. *)
Lemma donor_loop_returns (db : Database) (inc : bool) (thr : ChurnRisk)
    (now : datetime.t) (rows : list DonorStats) (st : loop_state) :
  inc && existsb (qualifies now thr) rows = false ->
  exists st',
    donor_loop db inc thr now rows st = Some st'
    /\ at_risk st' = at_risk st
    /\ (forall s, Z.of_nat (length (stage_list (donors_by_stage st') s))
                  = Z.of_nat (length (stage_list (donors_by_stage st) s))
                    + stage_count now s rows)
    /\ count_donors (donors_by_stage st')
       = count_donors (donors_by_stage st) + Z.of_nat (length rows).
Proof.
  revert st. induction rows as [ | donor rows IH]; intros st Hq.
  - exists st. cbn. unfold stage_count. cbn. repeat split; lia.
  - cbn [donor_loop]. rewrite process_donor_spec.
    cbn [existsb] in Hq.
    assert (Hhere : inc && qualifies now thr donor = false)
      by (destruct inc, (qualifies now thr donor); cbn in *; congruence).
    assert (Hrest : inc && existsb (qualifies now thr) rows = false)
      by (destruct inc, (qualifies now thr donor); cbn in *; congruence).
    rewrite Hhere. cbn [mbind option_bind].
    destruct (IH (mk_loop_state
                    (<[stage_of_donor now donor :=
                         stage_list (donors_by_stage st) (stage_of_donor now donor)
                         ++ [stage_entry now donor]]> (donors_by_stage st))
                    (at_risk st)) Hrest)
      as (st' & Hrun & Hroster & Hstage & Hcount).
    exists st'. cbn [donors_by_stage at_risk] in *.
    split; [exact Hrun | ]. split; [exact Hroster | ]. split.
    + intros s. rewrite Hstage, stage_list_insert.
      unfold stage_count. cbn [List.filter].
      case_bool_decide as E; [ | lia].
      subst s. rewrite length_app. cbn [length]. lia.
    + rewrite Hcount, count_donors_insert, length_app. cbn [length]. lia.
Qed.

Lemma retention_rate_total (active total : Z) :
  exists rate, retention_rate_of active total = Some rate.
Proof.
  unfold retention_rate_of, PyNum.int_truediv.
  destruct (Z.gtb_spec total 0); [ | eauto].
  destruct (Z.eqb_spec total 0); [lia | cbn; eauto].
Qed.

Lemma count_donors_empty : count_donors ∅ = 0.
Proof. reflexivity. Qed.

Lemma stage_list_empty (s : LifecycleStageEnum) : stage_list ∅ s = [].
Proof. reflexivity. Qed.

(** *** The endpoint *)

Section AnalyticsFacts.

Variable list_sort :
  forall A K : Type, (A -> K) -> (K -> K -> bool) -> bool -> list A -> list A.

(** The id is not read as a UUID: the first query raises. *)
Lemma analytics_bad_id (db : Database) (now : datetime.t) (oid : string)
    (inc : bool) (thr : ChurnRisk) :
  uuid_in db oid = None ->
  get_donor_lifecycle_analytics list_sort db now oid inc thr = None.
Proof.
  intros Hid. unfold get_donor_lifecycle_analytics. rewrite Hid. reflexivity.
Qed.

(** A donor goes on the roster: the e-mail lookup raises. *)
Lemma analytics_raises (db : Database) (now : datetime.t) (oid : string) (org : uuid)
    (thr : ChurnRisk) :
  uuid_in db oid = Some org ->
  existsb (qualifies now thr) (donor_stats db org) = true ->
  get_donor_lifecycle_analytics list_sort db now oid true thr = None.
Proof.
  intros Hid Hq. unfold get_donor_lifecycle_analytics. rewrite Hid.
  cbn [mbind option_bind]. rewrite (donor_loop_raises _ _ _ _ _ Hq). reflexivity.
Qed.

(** No donor goes on the roster: the endpoint returns, and every field of
    the report is determined by the rows of the two queries. *)
Lemma analytics_spec (db : Database) (now : datetime.t) (oid : string) (org : uuid)
    (inc : bool) (thr : ChurnRisk) :
  uuid_in db oid = Some org ->
  inc && existsb (qualifies now thr) (donor_stats db org) = false ->
  let rows := donor_stats db org in
  let roster := sort_at_risk list_sort [] in
  exists rate : PyNum.number,
    retention_rate_of (stage_count now REPEAT rows + stage_count now MAJOR rows)
                      (Z.of_nat (length rows)) = Some rate
    /\ get_donor_lifecycle_analytics list_sort db now oid inc thr
       = Some {| organization_id := oid;
                 snapshot_date := now;
                 cohort_analysis := build_cohort_analysis db org now;
                 at_risk_donors := firstn 100 roster;
                 summary_metrics :=
                   {| total_donors := Z.of_nat (length rows);
                      active_donors :=
                        stage_count now REPEAT rows + stage_count now MAJOR rows;
                      at_risk_count := Z.of_nat (length roster);
                      critical_risk_count :=
                        Z.of_nat (length (List.filter
                                            (fun d => bool_decide
                                                        (cr_risk_level d = CRITICAL))
                                            roster));
                      major_donors := stage_count now MAJOR rows;
                      lapsed_donors := stage_count now LAPSED rows;
                      lost_donors := stage_count now LOST rows;
                      retention_rate := rate |} |}.
Proof.
  intros Hid Hq rows roster.
  destruct (donor_loop_returns db inc thr now rows loop_init Hq)
    as (st & Hloop & Hroster & Hstage & Hcount).
  cbn [loop_init at_risk donors_by_stage] in Hroster, Hstage, Hcount.
  rewrite count_donors_empty in Hcount.
  assert (Hlen : forall s, Z.of_nat (length (stage_list (donors_by_stage st) s))
                           = stage_count now s rows).
  { intros s. rewrite Hstage, stage_list_empty. cbn [length]. lia. }
  destruct (retention_rate_total
              (stage_count now REPEAT rows + stage_count now MAJOR rows)
              (Z.of_nat (length rows))) as [rate Hrate].
  exists rate. split; [exact Hrate | ].
  unfold get_donor_lifecycle_analytics. rewrite Hid. cbn [mbind option_bind].
  fold rows. rewrite Hloop. cbn [mbind option_bind].
  rewrite Hroster. fold roster.
  unfold build_summary.
  rewrite !Hlen, Hcount, Z.add_0_l, Hrate. cbn [mbind option_bind].
  reflexivity.
Qed.

(** Every report that the endpoint returns is the one just described. *)
Lemma analytics_report (db : Database) (now : datetime.t) (oid : string)
    (inc : bool) (thr : ChurnRisk) (report : LifecycleAnalyticsResponse) :
  get_donor_lifecycle_analytics list_sort db now oid inc thr = Some report ->
  exists org : uuid,
    uuid_in db oid = Some org
    /\ inc && existsb (qualifies now thr) (donor_stats db org) = false.
Proof.
  intros Hrun.
  destruct (uuid_in db oid) as [org | ] eqn:Hid;
    [ | rewrite (analytics_bad_id _ _ _ _ _ Hid) in Hrun; discriminate Hrun].
  exists org. split; [reflexivity | ].
  destruct inc; [ | reflexivity]. cbn [andb].
  destruct (existsb (qualifies now thr) (donor_stats db org)) eqn:Hq; [ | reflexivity].
  rewrite (analytics_raises _ _ _ _ _ Hid Hq) in Hrun. discriminate Hrun.
Qed.

End AnalyticsFacts.
(** *** The roster

    The e-mail lookup names a column, [contact_value], that
    [models.ContactPoint] does not declare.  It is evaluated for every donor
    about to go on the roster, so the endpoint raises as soon as there is
    one, and a roster with an entry is never returned. *)



(** C6: the endpoint raises exactly when a donor is to go on the roster:
    [include_at_risk] is set and the risk tier of some donor of the
    organization is at or above the threshold.  No qualifying donor ever
    appears in a returned roster. *)
Theorem roster_entry_raises :
  forall (list_sort : forall A K : Type,
                        (A -> K) -> (K -> K -> bool) -> bool -> list A -> list A)
         (db : Database) (current_date : datetime.t)
         (organization_id : string) (org : uuid)
         (include_at_risk : bool) (risk_threshold : ChurnRisk),
    uuid_in db organization_id = Some org ->
    (get_donor_lifecycle_analytics list_sort db current_date organization_id
       include_at_risk risk_threshold = None
     <-> include_at_risk = true
         /\ exists row : DonorStats,
              In row (donor_stats db org)
              /\ qualifies current_date risk_threshold row = true).
Proof.
  intros list_sort db now oid org inc thr Hid. split.
  - intros Hrun.
    destruct (inc && existsb (qualifies now thr) (donor_stats db org)) eqn:Hq.
    + apply andb_true_iff in Hq as [-> Hq]. split; [reflexivity | ].
      apply existsb_exists in Hq. exact Hq.
    + destruct (analytics_spec list_sort db now oid org inc thr Hid Hq)
        as (rate & _ & Hspec).
      rewrite Hspec in Hrun. discriminate Hrun.
  - intros [-> Hrow]. apply (analytics_raises list_sort db now oid org thr Hid).
    apply existsb_exists. exact Hrow.
Qed.

Lemma roster_entry_raises_witness :
  get_donor_lifecycle_analytics insertion_sort example_db example_now example_org
    true MEDIUM = None.
Proof.
  apply (roster_entry_raises insertion_sort example_db example_now example_org
           example_org true MEDIUM); [reflexivity | ].
  split; [reflexivity | ].
  exists (mk_DonorStats cy "Cy" 0 None None None).
  split; [vm_compute; tauto | reflexivity].
Defined.

(** *** The summary metrics *)

(** C8, as stated, fails: with one active donor out of three the reported
    rate is the percentage 33.3, not the quotient of 1 by 3. *)
Lemma retention_rate_is_quotient_counterexample :
  exists (report : LifecycleAnalyticsResponse) (ratio : float),
    get_donor_lifecycle_analytics insertion_sort example_db example_now steady_org
      true MEDIUM = Some report
    /\ total_donors (summary_metrics report) = 3
    /\ active_donors (summary_metrics report) = 1
    /\ PyNum.int_truediv 1 3 = Some ratio
    /\ retention_rate (summary_metrics report)
       = PyNum.Float (S754_finite false 4686558362232422 (-47))
    /\ retention_rate (summary_metrics report) <> PyNum.Float ratio.
Proof.
  eexists _, _.
  split; [vm_compute; reflexivity | ].
  split; [reflexivity | ]. split; [reflexivity | ].
  split; [vm_compute; reflexivity | ].
  split; [reflexivity | ]. cbn. discriminate.
Qed.

(** C8, amended: in every report, [total_donors] is the number of donors of
    the organization and [active_donors] the number of donors in stage
    [REPEAT] plus the number in stage [MAJOR]; [retention_rate] is the
    integer 0 when there is no donor and otherwise the quotient
    [active_donors / total_donors], times 100, rounded to one decimal.  The
    division is never by zero: for an organization without donors the
    report is returned, with rate 0. *)
Theorem summary_retention_rate :
  forall (list_sort : forall A K : Type,
                        (A -> K) -> (K -> K -> bool) -> bool -> list A -> list A)
         (db : Database) (current_date : datetime.t)
         (organization_id : string) (org : uuid)
         (include_at_risk : bool) (risk_threshold : ChurnRisk),
    uuid_in db organization_id = Some org ->
    (forall report : LifecycleAnalyticsResponse,
       get_donor_lifecycle_analytics list_sort db current_date organization_id
         include_at_risk risk_threshold = Some report ->
       let s := summary_metrics report in
       total_donors s = Z.of_nat (length (donor_stats db org))
       /\ active_donors s
          = stage_count current_date REPEAT (donor_stats db org)
            + stage_count current_date MAJOR (donor_stats db org)
       /\ (total_donors s = 0 -> retention_rate s = PyNum.Int 0)
       /\ (total_donors s <> 0 ->
           exists ratio : float,
             PyNum.int_truediv (active_donors s) (total_donors s) = Some ratio
             /\ retention_rate s
                = PyNum.Float (PyNum.round
                                 (PyNum.fmul ratio (PyNum.float_of_int 100)) 1)))
    /\ (donor_stats db org = [] ->
        exists report : LifecycleAnalyticsResponse,
          get_donor_lifecycle_analytics list_sort db current_date organization_id
            include_at_risk risk_threshold = Some report
          /\ total_donors (summary_metrics report) = 0
          /\ retention_rate (summary_metrics report) = PyNum.Int 0).
Proof.
  intros list_sort db now oid org inc thr Hid. split.
  - intros report Hrun.
    destruct (analytics_report _ _ _ _ _ _ _ Hrun) as (org' & Hid' & Hq).
    rewrite Hid in Hid'. injection Hid' as <-.
    destruct (analytics_spec list_sort db now oid org inc thr Hid Hq)
      as (rate & Hrate & Hspec).
    rewrite Hspec in Hrun. injection Hrun as <-.
    cbn [summary_metrics total_donors active_donors retention_rate].
    split; [reflexivity | ]. split; [reflexivity | ].
    unfold retention_rate_of in Hrate.
    destruct (Z.gtb_spec (Z.of_nat (length (donor_stats db org))) 0) as [Hpos | Hzero].
    + destruct (PyNum.int_truediv _ _) as [ratio | ] eqn:Hdiv;
        cbn [mbind option_bind] in Hrate; [ | discriminate Hrate].
      injection Hrate as <-. split; [lia | ].
      intros _. exists ratio. split; reflexivity.
    + injection Hrate as <-. split; [reflexivity | ]. intros Hne. lia.
  - intros Hempty.
    assert (Hq : inc && existsb (qualifies now thr) (donor_stats db org) = false)
      by (rewrite Hempty; apply andb_false_r).
    destruct (analytics_spec list_sort db now oid org inc thr Hid Hq)
      as (rate & Hrate & Hspec).
    eexists. split; [exact Hspec | ].
    cbn [summary_metrics total_donors retention_rate].
    rewrite Hempty in Hrate |- *. cbn in Hrate. injection Hrate as <-.
    split; reflexivity.
Qed.

Lemma summary_retention_rate_witness :
  exists report : LifecycleAnalyticsResponse,
    get_donor_lifecycle_analytics insertion_sort example_db example_now steady_org
      true MEDIUM = Some report
    /\ total_donors (summary_metrics report) = 3
    /\ active_donors (summary_metrics report)
       = stage_count example_now REPEAT (donor_stats example_db steady_org)
         + stage_count example_now MAJOR (donor_stats example_db steady_org).
Proof.
  eexists. split; [vm_compute; reflexivity | ].
  destruct (summary_retention_rate insertion_sort example_db example_now
              steady_org steady_org true MEDIUM eq_refl) as [Hreport _].
  destruct (Hreport _ eq_refl) as (Htotal & Hactive & _).
  split; [exact Htotal | exact Hactive].
Defined.

(** *** The cohort buckets *)



Lemma cohort_donors_In (db : Database) (org : uuid) (year : Z) (id : uuid) :
  In id (cohort_donors db org year) <-> gave_in_year db org year id.
Proof.
  unfold cohort_donors, gave_in_year, donations_of.
  rewrite nodup_In, in_map_iff. split.
  - intros ([p d] & Hid & Hrow). cbn [fst snd] in *.
    apply List.filter_In in Hrow as [Hjoin Hcond]. cbn [fst snd] in Hcond.
    apply andb_true_iff in Hcond as [Horg Hyear].
    apply String.eqb_eq in Horg. apply Z.eqb_eq in Hyear.
    apply in_flat_map in Hjoin as (p' & Hp & Hpd).
    apply in_map_iff in Hpd as (d' & Heq & Hd). injection Heq as -> ->.
    apply List.filter_In in Hd as [Hd Hmatch]. apply String.eqb_eq in Hmatch.
    exists p, d. repeat split; congruence.
  - intros (p & d & Hp & Hd & Hid & Horg & Hparty & Hyear).
    exists (p, d). cbn [fst snd]. split; [exact Hid | ].
    apply List.filter_In. cbn [fst snd]. split.
    + apply in_flat_map. exists p. split; [exact Hp | ].
      apply in_map. apply List.filter_In. split; [exact Hd | ].
      apply String.eqb_eq. congruence.
    + apply andb_true_iff. split; [apply String.eqb_eq | apply Z.eqb_eq]; assumption.
Qed.





(** * Further properties of the scorer and of the classifier *)

(** X1: the recommender answers with the standard action except on the five
    listed pairs of risk tier and stage. *)
Theorem recommended_action_fallback :
  forall (risk_level : ChurnRisk) (stage : LifecycleStageEnum),
    get_recommended_action_advanced risk_level stage
      <> "Standard stewardship communication"%string
    <-> In (risk_level, stage)
           [ (CRITICAL, MAJOR); (CRITICAL, REPEAT); (HIGH, MAJOR);
             (HIGH, REPEAT); (MEDIUM, REPEAT) ].
Proof.
  intros r s. destruct r, s; cbn.
  all: split;
    [ intros H;
      first [ exfalso; apply H; reflexivity
            | clear H; repeat first [ left; reflexivity | right ] ]
    | intros H E;
      first [ discriminate E
            | repeat (destruct H as [H | H]; [discriminate H | ]); destruct H ] ].
Qed.

Lemma risk_tier_mono (s1 s2 : Z) :
  s1 <= s2 -> risk_order (risk_tier s1) <= risk_order (risk_tier s2).
Proof.
  intros H. unfold risk_tier. z_bools; cbn; lia.
Qed.

(** X2: with the other inputs fixed, the risk tier never gets lower when the
    recency gap grows. *)
Theorem risk_tier_monotone_in_days :
  forall (d1 d2 donation_count : Z) (avg_donation_frequency lifetime_value : float),
    d1 <= d2 ->
    risk_order (fst (calculate_churn_risk_advanced d1 donation_count
                       avg_donation_frequency lifetime_value))
    <= risk_order (fst (calculate_churn_risk_advanced d2 donation_count
                          avg_donation_frequency lifetime_value)).
Proof.
  intros d1 d2 c a v Hd. unfold calculate_churn_risk_advanced. cbn [fst].
  apply risk_tier_mono. apply churn_risk_state_mono. exact Hd.
Qed.

Lemma risk_tier_monotone_in_days_witness :
  risk_order (fst (calculate_churn_risk_advanced 100 2 (S754_zero false)
                     (PyNum.float_of_int 6000)))
  <= risk_order (fst (calculate_churn_risk_advanced 400 2 (S754_zero false)
                        (PyNum.float_of_int 6000))).
Proof. apply (risk_tier_monotone_in_days 100 400). lia. Defined.

(** X3: a donor who gave within the last 180 days is never at critical risk,
    and one who gave within the last 90 days is at most at medium risk. *)
Theorem recent_donor_risk_capped :
  forall (days_since_last donation_count : Z) (avg_donation_frequency lifetime_value : float),
    days_since_last < 180 ->
    let tier := fst (calculate_churn_risk_advanced days_since_last donation_count
                       avg_donation_frequency lifetime_value) in
    tier <> CRITICAL
    /\ (days_since_last < 90 -> tier <> HIGH).
Proof.
  intros d c a v Hd tier. subst tier.
  unfold calculate_churn_risk_advanced, churn_risk_state.
  unfold high_value_risk, limited_engagement, pattern_deviation, inactivity_period.
  num_bools; z_bools; cbn; split; intros; try discriminate; lia.
Qed.

Lemma recent_donor_risk_capped_witness :
  fst (calculate_churn_risk_advanced 179 1 (PyNum.float_of_int 30)
         (PyNum.float_of_int 6000)) <> CRITICAL.
Proof.
  apply (recent_donor_risk_capped 179 1 (PyNum.float_of_int 30) (PyNum.float_of_int 6000)).
  lia.
Defined.

(** X4: a donor silent for a year or more is never at low risk. *)
Theorem long_inactive_donor_at_risk :
  forall (days_since_last donation_count : Z) (avg_donation_frequency lifetime_value : float),
    365 <= days_since_last ->
    40 <= risk_score (churn_risk_state days_since_last donation_count
                        avg_donation_frequency lifetime_value)
    /\ fst (calculate_churn_risk_advanced days_since_last donation_count
              avg_donation_frequency lifetime_value) <> LOW.
Proof.
  intros d c a v Hd.
  unfold calculate_churn_risk_advanced, churn_risk_state.
  unfold high_value_risk, limited_engagement, pattern_deviation, inactivity_period.
  num_bools; z_bools; cbn; split; try discriminate; lia.
Qed.

Lemma long_inactive_donor_at_risk_witness :
  fst (calculate_churn_risk_advanced 365 5 (S754_zero false) (S754_zero false)) <> LOW.
Proof.
  apply (long_inactive_donor_at_risk 365 5 (S754_zero false) (S754_zero false)). lia.
Defined.

(** X5: every reported factor stands for 10 to 40 points of the score; in
    particular the score is 0 exactly when no factor is reported. *)
Theorem score_accounted_for_by_factors :
  forall (days_since_last donation_count : Z) (avg_donation_frequency lifetime_value : float),
    let st := churn_risk_state days_since_last donation_count
                avg_donation_frequency lifetime_value in
    10 * Z.of_nat (length (risk_factors st)) <= risk_score st
    /\ risk_score st <= 40 * Z.of_nat (length (risk_factors st))
    /\ (risk_factors st = [] <-> risk_score st = 0).
Proof.
  intros d c a v st. subst st. unfold churn_risk_state.
  unfold high_value_risk, limited_engagement, pattern_deviation, inactivity_period.
  num_bools; z_bools; cbn; (split; [lia | split; [lia | ]]);
    split; intros Hfact; try reflexivity; try discriminate Hfact; lia.
Qed.

(** X6: the classifier and the scorer agree on lapsing: a donor classified
    lapsed or lost is never at low risk, and a lost donor with a single
    gift is at high risk or above. *)
Theorem lapsed_or_lost_is_at_risk :
  forall (donation_count days_since_last : Z) (last : option datetime.t)
         (avg_donation_frequency lifetime_value : float),
    let stage := calculate_lifecycle_stage_advanced donation_count last
                   lifetime_value days_since_last in
    let tier := fst (calculate_churn_risk_advanced days_since_last donation_count
                       avg_donation_frequency lifetime_value) in
    stage = LAPSED \/ stage = LOST ->
    tier <> LOW /\ (donation_count = 1 -> tier <> MEDIUM).
Proof.
  intros c d last a v stage tier. subst stage tier.
  unfold calculate_lifecycle_stage_advanced.
  unfold calculate_churn_risk_advanced, churn_risk_state.
  unfold high_value_risk, limited_engagement, pattern_deviation, inactivity_period.
  num_bools; z_bools; cbn; intros [Hstage | Hstage]; try discriminate Hstage;
    split; intros; try discriminate; lia.
Qed.

Lemma lapsed_or_lost_is_at_risk_witness :
  fst (calculate_churn_risk_advanced 400 4 (S754_zero false) (S754_zero false)) <> LOW.
Proof.
  apply (lapsed_or_lost_is_at_risk 4 400 None (S754_zero false) (S754_zero false)).
  left. reflexivity.
Defined.

(** * Further properties of the report *)

(** *** Dates *)

Lemma timedelta_days_floor (a b : datetime.t) :
  datetime.days (datetime.sub a b)
  = (datetime.instant a - datetime.instant b) / 86400000000.
Proof.
  unfold datetime.sub, datetime.make_timedelta, datetime.instant. cbn [datetime.days].
  set (d := datetime.toordinal a - datetime.toordinal b).
  set (s := datetime.day_seconds a - datetime.day_seconds b).
  set (us := datetime.microsecond a - datetime.microsecond b).
  replace ((datetime.toordinal a * 86400 + datetime.day_seconds a) * 1000000
           + datetime.microsecond a
           - ((datetime.toordinal b * 86400 + datetime.day_seconds b) * 1000000
              + datetime.microsecond b))
    with ((d * 86400 + s) * 1000000 + us) by (unfold d, s, us; ring).
  change 86400000000 with (1000000 * 86400).
  rewrite <- Z.div_div by lia.
  rewrite Z.div_add_l by lia.
  rewrite <- Z.add_assoc, Z.div_add_l by lia.
  reflexivity.
Qed.

(** X7: the recency gap of a donor is the number of whole days elapsed since
    the last donation; it is negative exactly when that donation lies in
    the future of the evaluation instant. *)
Theorem days_since_last_whole_days :
  forall (current_date last : datetime.t) (donor : DonorStats),
    last_donation_date donor = Some last ->
    let elapsed := datetime.instant current_date - datetime.instant last in
    days_since_last_of current_date donor = elapsed / 86400000000
    /\ (0 <= days_since_last_of current_date donor <-> 0 <= elapsed).
Proof.
  intros now last donor Hlast elapsed. subst elapsed.
  unfold days_since_last_of. rewrite Hlast, timedelta_days_floor.
  split; [reflexivity | ].
  split; intros H.
  - destruct (Z.lt_ge_cases (datetime.instant now - datetime.instant last) 0) as [Hneg | Hpos];
      [ | exact Hpos].
    apply (Z.div_lt_upper_bound _ 86400000000 0) in Hneg; lia.
  - apply Z.div_pos; lia.
Qed.

Lemma days_since_last_whole_days_witness :
  days_since_last_of example_now
    (mk_DonorStats "b" "Bob" 2 (Some (midnight 2025 2 1)) None None) = 640.
Proof.
  destruct (days_since_last_whole_days example_now (midnight 2025 2 1)
              (mk_DonorStats "b" "Bob" 2 (Some (midnight 2025 2 1)) None None) eq_refl)
    as [H _].
  rewrite H. vm_compute. reflexivity.
Defined.

(** *** The rows of the query *)

Lemma sql_fold_None (f : option datetime.t -> datetime.t -> option datetime.t)
    (l : list datetime.t) (acc : option datetime.t) :
  (forall a d, f a d <> None) ->
  fold_left f l acc = None -> l = [] /\ acc = None.
Proof.
  intros Hf. revert acc. induction l as [ | x l IH]; intros acc H; cbn in H.
  - split; [reflexivity | exact H].
  - apply IH in H as [_ H]. destruct (Hf acc x H).
Qed.

Lemma sql_max_None (l : list datetime.t) : sql_max l = None <-> l = [].
Proof.
  split; [ | intros ->; reflexivity].
  intros H. apply sql_fold_None in H as [H _]; [exact H | ].
  intros [m | ] d; [destruct (_ <? _) | ]; discriminate.
Qed.

Lemma sql_min_None (l : list datetime.t) : sql_min l = None <-> l = [].
Proof.
  split; [ | intros ->; reflexivity].
  intros H. apply sql_fold_None in H as [H _]; [exact H | ].
  intros [m | ] d; [destruct (_ <? _) | ]; discriminate.
Qed.

Lemma sql_min_fold_le (l : list datetime.t) (acc : option datetime.t) (a : datetime.t) :
  fold_left (fun acc d =>
               match acc with
               | None => Some d
               | Some m => if datetime.instant d <? datetime.instant m
                           then Some d else Some m
               end) l acc = Some a ->
  (forall m, acc = Some m -> datetime.instant a <= datetime.instant m)
  /\ Forall (fun x => datetime.instant a <= datetime.instant x) l.
Proof.
  revert acc. induction l as [ | x l IH]; intros acc H; cbn in H.
  - split; [ | constructor]. intros m Hm. rewrite Hm in H. injection H as ->. lia.
  - apply IH in H as [Hacc Hl]. destruct acc as [m | ].
    + destruct (Z.ltb_spec (datetime.instant x) (datetime.instant m)) as [Hlt | Hge].
      * specialize (Hacc x eq_refl). split.
        -- intros m' Hm'. injection Hm' as <-. lia.
        -- constructor; assumption.
      * specialize (Hacc m eq_refl). split.
        -- intros m' Hm'. injection Hm' as <-. exact Hacc.
        -- constructor; [lia | assumption].
    + specialize (Hacc x eq_refl). split; [intros m Hm; discriminate Hm | ].
      constructor; assumption.
Qed.

Lemma sql_max_fold_ge (l : list datetime.t) (acc : option datetime.t) (b : datetime.t) :
  fold_left (fun acc d =>
               match acc with
               | None => Some d
               | Some m => if datetime.instant m <? datetime.instant d
                           then Some d else Some m
               end) l acc = Some b ->
  (forall m, acc = Some m -> datetime.instant m <= datetime.instant b)
  /\ Forall (fun x => datetime.instant x <= datetime.instant b) l.
Proof.
  revert acc. induction l as [ | x l IH]; intros acc H; cbn in H.
  - split; [ | constructor]. intros m Hm. rewrite Hm in H. injection H as ->. lia.
  - apply IH in H as [Hacc Hl]. destruct acc as [m | ].
    + destruct (Z.ltb_spec (datetime.instant m) (datetime.instant x)) as [Hlt | Hge].
      * specialize (Hacc x eq_refl). split.
        -- intros m' Hm'. injection Hm' as <-. lia.
        -- constructor; assumption.
      * specialize (Hacc m eq_refl). split.
        -- intros m' Hm'. injection Hm' as <-. exact Hacc.
        -- constructor; [lia | assumption].
    + specialize (Hacc x eq_refl). split; [intros m Hm; discriminate Hm | ].
      constructor; assumption.
Qed.

Lemma sql_min_le_max (l : list datetime.t) (a b : datetime.t) :
  sql_min l = Some a -> sql_max l = Some b ->
  datetime.instant a <= datetime.instant b.
Proof.
  intros Ha Hb. destruct l as [ | x l]; [discriminate Ha | ].
  apply sql_min_fold_le in Ha as [_ Ha]. apply sql_max_fold_ge in Hb as [_ Hb].
  inversion Ha; inversion Hb; subst. lia.
Qed.

Lemma donor_stats_row_facts (db : Database) (org : string) (row : DonorStats) :
  In row (donor_stats db org) ->
  0 <= donation_count row
  /\ (donation_count row = 0 <-> last_donation_date row = None)
  /\ (donation_count row = 0 <-> first_donation_date row = None)
  /\ (donation_count row = 0 <-> lifetime_value row = None)
  /\ (forall first last,
        first_donation_date row = Some first ->
        last_donation_date row = Some last ->
        datetime.instant first <= datetime.instant last).
Proof.
  intros Hrow. unfold donor_stats in Hrow.
  apply in_map_iff in Hrow as (p & <- & _). cbn.
  set (ds := donations_of db p).
  assert (Hnil : Z.of_nat (length ds) = 0 <-> ds = []).
  { destruct ds; cbn; split; intros H; try reflexivity; try discriminate H; lia. }
  split; [lia | ]. split; [ | split; [ | split]].
  - rewrite sql_max_None, Hnil. destruct ds; cbn; split; intros H; congruence.
  - rewrite sql_min_None, Hnil. destruct ds; cbn; split; intros H; congruence.
  - rewrite Hnil. destruct ds; cbn; split; intros H; congruence.
  - intros first last. apply sql_min_le_max.
Qed.

(** X8: in every row of the donor query the four aggregates are consistent:
    the count is not negative; it is 0 exactly when the donor has no last
    donation date, no first donation date and no lifetime value; and a first
    donation is never later than the last one. *)
Theorem donor_stats_row_consistent :
  forall (db : Database) (org : string) (row : DonorStats),
    In row (donor_stats db org) ->
    0 <= donation_count row
    /\ (donation_count row = 0 <-> last_donation_date row = None)
    /\ (donation_count row = 0 <-> first_donation_date row = None)
    /\ (donation_count row = 0 <-> lifetime_value row = None)
    /\ (forall first last,
          first_donation_date row = Some first ->
          last_donation_date row = Some last ->
          datetime.instant first <= datetime.instant last).
Proof. intros db org row. apply donor_stats_row_facts. Qed.

Lemma donor_stats_row_consistent_witness :
  donation_count (mk_DonorStats cy "Cy" 0 None None None) = 0
  <-> last_donation_date (mk_DonorStats cy "Cy" 0 None None None) = None.
Proof.
  apply (donor_stats_row_consistent example_db example_org
           (mk_DonorStats cy "Cy" 0 None None None)).
  vm_compute. tauto.
Defined.

(** *** Donors without donations *)

(** X9: a donor of the organization without any donation gets the sentinel
    recency gap 999999, is classified as a prospect and is scored at high
    risk, with the long-inactivity and thin-history factors. *)
Theorem donor_without_donation_is_high_risk_prospect :
  forall (db : Database) (current_date : datetime.t) (org : uuid) (row : DonorStats),
    In row (donor_stats db org) ->
    donation_count row = 0 ->
    days_since_last_of current_date row = 999999
    /\ stage_of_donor current_date row = PROSPECT
    /\ risk_of_donor current_date row
       = (HIGH, [ "No donation in 999999 days (12+ months)";
                  "Limited giving history (< 3 donations)" ]%string).
Proof.
  intros db now org row Hrow Hzero.
  destruct (donor_stats_row_facts db org row Hrow)
    as (_ & Hlast & _ & Hvalue & _).
  apply Hlast in Hzero as Hl. apply Hvalue in Hzero as Hv.
  assert (Hdays : days_since_last_of now row = 999999).
  { unfold days_since_last_of. rewrite Hl. reflexivity. }
  split; [exact Hdays | ]. split.
  - unfold stage_of_donor, calculate_lifecycle_stage_advanced. rewrite Hzero. reflexivity.
  - unfold risk_of_donor, avg_frequency_value, avg_frequency_of.
    rewrite Hdays, Hzero, Hv. vm_compute. reflexivity.
Qed.

Lemma donor_without_donation_is_high_risk_prospect_witness :
  stage_of_donor example_now (mk_DonorStats cy "Cy" 0 None None None) = PROSPECT.
Proof.
  apply (donor_without_donation_is_high_risk_prospect example_db example_now
           example_org (mk_DonorStats cy "Cy" 0 None None None)).
  - vm_compute. tauto.
  - reflexivity.
Defined.

(** *** The summary metrics and the stages *)

Lemma stage_counts_partition (now : datetime.t) (rows : list DonorStats) :
  Z.of_nat (length rows)
  = stage_count now PROSPECT rows + stage_count now FIRST_TIME rows
    + stage_count now REPEAT rows + stage_count now MAJOR rows
    + stage_count now LAPSED rows + stage_count now LOST rows.
Proof.
  unfold stage_count. induction rows as [ | row rows IH]; [reflexivity | ].
  cbn [List.filter length].
  destruct (stage_of_donor now row);
    repeat (case_bool_decide; try congruence); cbn [length]; lia.
Qed.

Lemma stage_count_bounds (now : datetime.t) (s : LifecycleStageEnum)
    (rows : list DonorStats) :
  0 <= stage_count now s rows.
Proof. unfold stage_count. lia. Qed.

(** X10: the stages partition the donors: [total_donors] is the sum of the
    numbers of donors classified into the six stages, [major_donors],
    [lapsed_donors] and [lost_donors] are three of those numbers, and
    [active_donors] never exceeds [total_donors]. *)
Theorem summary_counts_partition_donors :
  forall (list_sort : forall A K : Type,
                        (A -> K) -> (K -> K -> bool) -> bool -> list A -> list A)
         (db : Database) (current_date : datetime.t)
         (organization_id : string) (org : uuid)
         (include_at_risk : bool) (risk_threshold : ChurnRisk)
         (report : LifecycleAnalyticsResponse),
    uuid_in db organization_id = Some org ->
    get_donor_lifecycle_analytics list_sort db current_date organization_id
      include_at_risk risk_threshold = Some report ->
    let s := summary_metrics report in
    let count stage := stage_count current_date stage (donor_stats db org) in
    total_donors s
    = count PROSPECT + count FIRST_TIME + count REPEAT + count MAJOR
      + count LAPSED + count LOST
    /\ major_donors s = count MAJOR
    /\ lapsed_donors s = count LAPSED
    /\ lost_donors s = count LOST
    /\ 0 <= active_donors s <= total_donors s.
Proof.
  intros list_sort db now oid org inc thr report Hid Hrun s count. subst s count.
  cbv beta.
  destruct (analytics_report _ _ _ _ _ _ _ Hrun) as (org' & Hid' & Hq).
  rewrite Hid in Hid'. injection Hid' as <-.
  destruct (analytics_spec list_sort db now oid org inc thr Hid Hq) as (rate & _ & Hspec).
  rewrite Hspec in Hrun. injection Hrun as <-.
  cbn [summary_metrics total_donors active_donors major_donors lapsed_donors lost_donors].
  pose proof (stage_counts_partition now (donor_stats db org)) as Hpart.
  pose proof (stage_count_bounds now PROSPECT (donor_stats db org)).
  pose proof (stage_count_bounds now FIRST_TIME (donor_stats db org)).
  pose proof (stage_count_bounds now REPEAT (donor_stats db org)).
  pose proof (stage_count_bounds now MAJOR (donor_stats db org)).
  pose proof (stage_count_bounds now LAPSED (donor_stats db org)).
  pose proof (stage_count_bounds now LOST (donor_stats db org)).
  repeat split; lia.
Qed.

Lemma summary_counts_partition_donors_witness :
  exists report : LifecycleAnalyticsResponse,
    get_donor_lifecycle_analytics insertion_sort example_db example_now steady_org
      true MEDIUM = Some report
    /\ 0 <= active_donors (summary_metrics report) <= total_donors (summary_metrics report).
Proof.
  eexists. split; [vm_compute; reflexivity | ].
  apply (summary_counts_partition_donors insertion_sort example_db example_now
           steady_org steady_org true MEDIUM); [reflexivity | ].
  vm_compute. reflexivity.
Defined.

(** *** Bounds on the cohort analysis *)

Lemma cohort_donors_incl (db : Database) (org : uuid) (year : Z) :
  incl (cohort_donors db org year) (map donor_id (donor_stats db org)).
Proof.
  intros id Hid. apply cohort_donors_In in Hid.
  destruct Hid as (p & d & Hp & _ & Hid & Horg & _).
  unfold donor_stats. rewrite map_map. cbn [donor_id].
  apply in_map_iff. exists p. split; [exact Hid | ].
  apply List.filter_In. split; [exact Hp | ]. apply String.eqb_eq. exact Horg.
Qed.

Lemma cohort_of_year_short (db : Database) (org : uuid) (year : Z) :
  (length (cohort_of_year db org year) <= 1)%nat.
Proof. unfold cohort_of_year. destruct (_ >? 0); cbn; lia. Qed.

(** X14: the cohort analysis has at most three buckets; every bucket counts
    at least one donor and at most the organization's [total_donors]; and
    its retention and value fields are never computed: they are all zero. *)
Theorem cohort_buckets_bounded :
  forall (list_sort : forall A K : Type,
                        (A -> K) -> (K -> K -> bool) -> bool -> list A -> list A)
         (db : Database) (current_date : datetime.t) (organization_id : string)
         (include_at_risk : bool) (risk_threshold : ChurnRisk)
         (report : LifecycleAnalyticsResponse),
    get_donor_lifecycle_analytics list_sort db current_date organization_id
      include_at_risk risk_threshold = Some report ->
    (length (cohort_analysis report) <= 3)%nat
    /\ forall b, In b (cohort_analysis report) ->
         1 <= initial_count b <= total_donors (summary_metrics report)
         /\ retained_month_1 b = 0 /\ retained_month_3 b = 0
         /\ retained_month_6 b = 0 /\ retained_month_12 b = 0
         /\ retention_rate_12m b = S754_zero false
         /\ avg_cohort_value b = S754_zero false.
Proof.
  intros list_sort db now oid inc thr report Hrun.
  destruct (analytics_report _ _ _ _ _ _ _ Hrun) as (org & Hid & Hq).
  destruct (analytics_spec list_sort db now oid org inc thr Hid Hq) as (rate & _ & Hspec).
  rewrite Hspec in Hrun. injection Hrun as <-.
  cbn [cohort_analysis summary_metrics total_donors].
  unfold build_cohort_analysis, cohort_years, py_range.
  replace (datetime.year now + 1 - (datetime.year now - 2)) with 3 by lia.
  change (Z.to_nat 3) with 3%nat. cbn [seq map flat_map].
  split.
  - rewrite !length_app. cbn [length].
    pose proof (cohort_of_year_short db org (datetime.year now - 2 + Z.of_nat 0)).
    pose proof (cohort_of_year_short db org (datetime.year now - 2 + Z.of_nat 1)).
    pose proof (cohort_of_year_short db org (datetime.year now - 2 + Z.of_nat 2)).
    lia.
  - assert (Hone : forall year b, In b (cohort_of_year db org year) ->
              1 <= initial_count b <= Z.of_nat (length (donor_stats db org))
              /\ retained_month_1 b = 0 /\ retained_month_3 b = 0
              /\ retained_month_6 b = 0 /\ retained_month_12 b = 0
              /\ retention_rate_12m b = S754_zero false
              /\ avg_cohort_value b = S754_zero false).
    { intros year b Hb. unfold cohort_of_year in Hb.
      destruct (Z.gtb_spec (Z.of_nat (length (cohort_donors db org year))) 0)
        as [Hpos | Hz]; [ | destruct Hb].
      destruct Hb as [<- | []]. cbn. repeat split; try lia.
      pose proof (NoDup_incl_length (List.NoDup_nodup string_dec _)
                    (cohort_donors_incl db org year)) as Hlen.
      unfold cohort_donors in *. rewrite length_map in Hlen. lia. }
    intros b Hb. rewrite !in_app_iff in Hb.
    destruct Hb as [Hb | [Hb | [Hb | []]]]; eapply Hone; exact Hb.
Qed.

Lemma cohort_buckets_bounded_witness :
  exists report : LifecycleAnalyticsResponse,
    get_donor_lifecycle_analytics insertion_sort example_db example_now steady_org
      true MEDIUM = Some report
    /\ (length (cohort_analysis report) <= 3)%nat.
Proof.
  eexists. split; [vm_compute; reflexivity | ].
  apply (cohort_buckets_bounded insertion_sort example_db example_now steady_org
           true MEDIUM).
  vm_compute. reflexivity.
Defined.

(** *** Other organizations *)

Lemma filter_filter_implied {A : Type} (f g : A -> bool) (l : list A) :
  (forall a, f a = true -> g a = true) ->
  List.filter f (List.filter g l) = List.filter f l.
Proof.
  intros Himp. induction l as [ | a l IH]; cbn; [reflexivity | ].
  destruct (g a) eqn:Hg; cbn.
  - rewrite IH. reflexivity.
  - destruct (f a) eqn:Hf; [ | exact IH].
    rewrite (Himp a Hf) in Hg. discriminate Hg.
Qed.

Lemma filter_flat_map_filter {A B : Type} (keep : A -> bool) (g : A -> list B)
    (f : B -> bool) (l : list A) :
  (forall a b, In b (g a) -> f b = true -> keep a = true) ->
  List.filter f (flat_map g (List.filter keep l)) = List.filter f (flat_map g l).
Proof.
  intros Hkeep. induction l as [ | a l IH]; cbn; [reflexivity | ].
  destruct (keep a) eqn:Ha; cbn.
  - rewrite !List.filter_app, IH. reflexivity.
  - rewrite List.filter_app, IH.
    assert (Hnone : List.filter f (g a) = []).
    { destruct (List.filter f (g a)) as [ | b rest] eqn:Hf; [reflexivity | ].
      assert (Hb : In b (List.filter f (g a))) by (rewrite Hf; left; reflexivity).
      apply List.filter_In in Hb as [Hb Hfb].
      rewrite (Hkeep a b Hb Hfb) in Ha. discriminate Ha. }
    rewrite Hnone. reflexivity.
Qed.

Lemma donor_stats_restrict (db : Database) (oid : string) (org : uuid) :
  uuid_in db oid = Some org ->
  donor_stats (restrict_parties db oid) org = donor_stats db org.
Proof.
  intros Hid.
  unfold donor_stats, donations_of, restrict_parties. cbn [parties donations].
  rewrite filter_filter_implied; [reflexivity | ].
  intros p Hp. apply String.eqb_eq in Hp. rewrite Hid, Hp.
  apply bool_decide_eq_true. reflexivity.
Qed.

Lemma cohort_donors_restrict (db : Database) (oid : string) (org : uuid) (year : Z) :
  uuid_in db oid = Some org ->
  cohort_donors (restrict_parties db oid) org year = cohort_donors db org year.
Proof.
  intros Hid.
  unfold cohort_donors, donations_of, restrict_parties. cbn [parties donations].
  f_equal. f_equal.
  apply filter_flat_map_filter.
  intros p [p' d] Hin Hrow. cbn [fst snd] in Hrow.
  apply in_map_iff in Hin as (d' & Heq & _). injection Heq as -> ->.
  apply andb_true_iff in Hrow as [Horg _]. apply String.eqb_eq in Horg.
  rewrite Hid, Horg. apply bool_decide_eq_true. reflexivity.
Qed.

Lemma donor_loop_restrict (db : Database) (oid : string) (inc : bool) (thr : ChurnRisk)
    (now : datetime.t) (rows : list DonorStats) (st : loop_state) :
  donor_loop (restrict_parties db oid) inc thr now rows st
  = donor_loop db inc thr now rows st.
Proof.
  revert st. induction rows as [ | row rows IH]; intros st; cbn [donor_loop].
  - reflexivity.
  - change (process_donor (restrict_parties db oid) inc thr now st row)
      with (process_donor db inc thr now st row).
    destruct (process_donor db inc thr now st row) as [st' | ]; cbn; [apply IH | reflexivity].
Qed.

(** X16: the report of an organization does not depend on the parties of the
    other organizations: removing them from the database leaves the report
    unchanged. *)
Theorem report_ignores_other_organizations :
  forall (list_sort : forall A K : Type,
                        (A -> K) -> (K -> K -> bool) -> bool -> list A -> list A)
         (db : Database) (current_date : datetime.t) (organization_id : string)
         (include_at_risk : bool) (risk_threshold : ChurnRisk),
    get_donor_lifecycle_analytics list_sort (restrict_parties db organization_id)
      current_date organization_id include_at_risk risk_threshold
    = get_donor_lifecycle_analytics list_sort db current_date organization_id
        include_at_risk risk_threshold.
Proof.
  intros list_sort db now oid inc thr. unfold get_donor_lifecycle_analytics.
  change (uuid_in (restrict_parties db oid)) with (uuid_in db).
  destruct (uuid_in db oid) as [org | ] eqn:Hid; [ | reflexivity].
  cbn [mbind option_bind].
  rewrite (donor_stats_restrict db oid org Hid), donor_loop_restrict.
  unfold build_cohort_analysis, cohort_of_year.
  destruct (donor_loop db inc thr now (donor_stats db org) loop_init) as [st | ];
    [ | reflexivity].
  cbn [mbind option_bind].
  destruct (build_summary _ _) as [summary | ]; [ | reflexivity].
  cbn [mbind option_bind]. f_equal. f_equal.
  apply flat_map_ext. intros year.
  rewrite (cohort_donors_restrict db oid org year Hid). reflexivity.
Qed.

(** * The lifecycle snapshot *)

Lemma ltb_not_geb (x y : PyNum.value) :
  PyNum.ltb x y = true -> PyNum.geb x y = false.
Proof.
  unfold PyNum.ltb, PyNum.geb. destruct (PyNum.compare x y) as [[] | ]; congruence.
Qed.

Lemma snapshot_results_rows (db : Database) (org : uuid) (row : SnapshotRow) :
  In row (snapshot_results db org) ->
  1 <= snap_donation_count row /\ exists v, snap_total_given row = Some v.
Proof.
  unfold snapshot_results. intros Hrow.
  apply in_map_iff in Hrow as (p & <- & Hp). cbn.
  apply List.filter_In in Hp as [_ Hp]. apply andb_true_iff in Hp as [_ Hp].
  unfold has_donation in Hp.
  destruct (donations_of db p) as [ | d ds]; [discriminate Hp | ].
  cbn. split; [lia | eauto].
Qed.

Lemma filter_length_cons {A : Type} (f : A -> bool) (a : A) (l : list A) :
  Z.of_nat (length (List.filter f (a :: l)))
  = Z.b2z (f a) + Z.of_nat (length (List.filter f l)).
Proof. cbn. destruct (f a); cbn [length Z.b2z]; lia. Qed.

(** One round of the loop adds the donor to exactly one counter. *)
Lemma snapshot_step_spec (now : datetime.t) (c : snapshot_counts) (row : SnapshotRow)
    (v : float) :
  1 <= snap_donation_count row -> snap_total_given row = Some v ->
  snapshot_step now c row
  = Some {| acquisition_count := acquisition_count c;
            conversion_count := conversion_count c + Z.b2z (snapshot_conversion row);
            cultivation_count :=
              cultivation_count c + Z.b2z (snapshot_cultivation now row);
            stewardship_count :=
              stewardship_count c + Z.b2z (snapshot_stewardship now row);
            reactivation_count :=
              reactivation_count c + Z.b2z (snapshot_reactivation now row) |}.
Proof.
  intros Hcount Hgiven.
  unfold snapshot_step, snapshot_conversion, snapshot_cultivation,
    snapshot_stewardship, snapshot_reactivation.
  rewrite Hgiven. unfold given_lt, given_ge.
  destruct (Z.eqb_spec (snap_donation_count row) 0) as [Hz | _]; [lia | ].
  destruct (Z.eqb_spec (snap_donation_count row) 1) as [Hone | Hmany].
  - rewrite Hone. cbn. rewrite !Z.add_0_r. reflexivity.
  - replace (snap_donation_count row >? 1) with true
      by (symmetry; apply Z.gtb_lt; lia).
    replace (1 <? snap_donation_count row) with true
      by (symmetry; apply Z.ltb_lt; lia).
    cbn [mbind option_bind andb]. rewrite Z.gtb_ltb.
    destruct (PyNum.ltb _ _) eqn:Hlt.
    + rewrite (ltb_not_geb _ _ Hlt). cbn. rewrite !Z.add_0_r. reflexivity.
    + cbn [mbind option_bind negb andb orb].
      destruct (PyNum.geb _ _); cbn [andb negb];
        destruct (Z.ltb_spec (snapshot_days now row) 365);
        destruct (Z.ltb_spec 365 (snapshot_days now row));
        destruct (Z.eqb_spec (snapshot_days now row) 365);
        try lia; cbn; rewrite ?Z.add_0_r; reflexivity.
Qed.

Lemma snapshot_loop_spec (now : datetime.t) (rows : list SnapshotRow)
    (c : snapshot_counts) :
  (forall row, In row rows ->
     1 <= snap_donation_count row /\ exists v, snap_total_given row = Some v) ->
  snapshot_loop now rows c
  = Some {| acquisition_count := acquisition_count c;
            conversion_count :=
              conversion_count c
              + Z.of_nat (length (List.filter snapshot_conversion rows));
            cultivation_count :=
              cultivation_count c
              + Z.of_nat (length (List.filter (snapshot_cultivation now) rows));
            stewardship_count :=
              stewardship_count c
              + Z.of_nat (length (List.filter (snapshot_stewardship now) rows));
            reactivation_count :=
              reactivation_count c
              + Z.of_nat (length (List.filter (snapshot_reactivation now) rows)) |}.
Proof.
  revert c. induction rows as [ | row rows IH]; intros c Hrows.
  - cbn. rewrite !Z.add_0_r. destruct c. reflexivity.
  - destruct (Hrows row (or_introl eq_refl)) as [Hcount [v Hv]].
    cbn [snapshot_loop]. rewrite (snapshot_step_spec now c row v Hcount Hv).
    cbn [mbind option_bind].
    rewrite (IH _ (fun r Hr => Hrows r (or_intror Hr))).
    cbn [acquisition_count conversion_count cultivation_count stewardship_count
         reactivation_count].
    rewrite !filter_length_cons. f_equal. f_equal; lia.
Qed.

(** Each donor with a donation falls under exactly one of the four
    stages. *)
Lemma snapshot_stages_partition (now : datetime.t) (rows : list SnapshotRow) :
  (forall row, In row rows ->
     1 <= snap_donation_count row /\ exists v, snap_total_given row = Some v) ->
  Z.of_nat (length (List.filter snapshot_conversion rows))
  + Z.of_nat (length (List.filter (snapshot_cultivation now) rows))
  + Z.of_nat (length (List.filter (snapshot_stewardship now) rows))
  + Z.of_nat (length (List.filter (snapshot_reactivation now) rows))
  = Z.of_nat (length rows).
Proof.
  induction rows as [ | row rows IH]; intros Hrows; [reflexivity | ].
  rewrite !filter_length_cons. cbn [length].
  specialize (IH (fun r Hr => Hrows r (or_intror Hr))).
  destruct (Hrows row (or_introl eq_refl)) as [Hcount [v Hv]].
  assert (Hone : Z.b2z (snapshot_conversion row) + Z.b2z (snapshot_cultivation now row)
                 + Z.b2z (snapshot_stewardship now row)
                 + Z.b2z (snapshot_reactivation now row) = 1).
  { unfold snapshot_conversion, snapshot_cultivation, snapshot_stewardship,
      snapshot_reactivation. rewrite Hv.
    destruct (Z.eqb_spec (snap_donation_count row) 1) as [Hone | Hmany].
    - rewrite Hone. reflexivity.
    - replace (1 <? snap_donation_count row) with true
        by (symmetry; apply Z.ltb_lt; lia).
      cbn [andb].
      destruct (PyNum.ltb _ _) eqn:Hlt.
      + rewrite (ltb_not_geb _ _ Hlt). reflexivity.
      + destruct (PyNum.geb _ _); cbn [andb negb orb];
          destruct (Z.ltb_spec (snapshot_days now row) 365);
          destruct (Z.ltb_spec 365 (snapshot_days now row));
          destruct (Z.eqb_spec (snapshot_days now row) 365);
          try lia; reflexivity. }
  lia.
Qed.

(** X17: the snapshot raises exactly when the server does not read the
    organization id as a UUID.  Otherwise it returns its five stages in the
    order Acquisition, Conversion, Cultivation, Stewardship, Reactivation;
    the Acquisition count is 0, because the query only returns donors that
    have a donation; and the five counts add up to the number of donors of
    the organization that have a donation. *)
Theorem lifecycle_snapshot_counts_donors_with_donations :
  forall (db : Database) (now : datetime.t) (organization_id : string)
         (segment channel campaign_id : option string),
    match uuid_in db organization_id with
    | None =>
        get_lifecycle_snapshot db now organization_id segment channel campaign_id
        = None
    | Some org =>
        exists stages : list LifecycleStage,
          get_lifecycle_snapshot db now organization_id segment channel campaign_id
          = Some stages
          /\ map ls_stage stages
             = ["Acquisition"; "Conversion"; "Cultivation"; "Stewardship";
                "Reactivation"]%string
          /\ (exists rest, map ls_count stages = 0 :: rest)
          /\ fold_right Z.add 0 (map ls_count stages)
             = Z.of_nat (length (List.filter
                                   (fun p => String.eqb (party_organization_id p) org
                                             && has_donation db p)
                                   (parties db)))
    end.
Proof.
  intros db now oid segment channel campaign_id.
  unfold get_lifecycle_snapshot.
  destruct (uuid_in db oid) as [org | ]; [ | reflexivity].
  cbn [mbind option_bind].
  rewrite (snapshot_loop_spec now (snapshot_results db org) snapshot_zero
             (snapshot_results_rows db org)).
  cbn [mbind option_bind].
  eexists. split; [reflexivity | ]. cbn [map ls_stage ls_count fold_right].
  split; [reflexivity | ]. split.
  - cbn. eauto.
  - pose proof (snapshot_stages_partition now (snapshot_results db org)
                  (snapshot_results_rows db org)) as Hsum.
    cbn [snapshot_zero acquisition_count conversion_count cultivation_count
         stewardship_count reactivation_count].
    unfold snapshot_results in Hsum at 5. rewrite length_map in Hsum. lia.
Qed.

(** X18: the five counts of the snapshot, donor by donor.  Acquisition is 0.
    Conversion counts the donors with exactly one donation.  With two
    donations or more, a donor counts under Stewardship when they gave 1000
    or more in total and less than 365 days ago; under Reactivation when
    their total is not below 1000 and their last donation is more than 365
    days old; and under Cultivation otherwise: when their total is below
    1000, and also when their last donation is exactly 365 days old. *)
Theorem lifecycle_snapshot_stage_counts :
  forall (db : Database) (now : datetime.t) (organization_id : string) (org : uuid)
         (segment channel campaign_id : option string)
         (stages : list LifecycleStage),
    uuid_in db organization_id = Some org ->
    get_lifecycle_snapshot db now organization_id segment channel campaign_id
      = Some stages ->
    let rows := snapshot_results db org in
    map ls_count stages
    = [ 0;
        Z.of_nat (length (List.filter snapshot_conversion rows));
        Z.of_nat (length (List.filter (snapshot_cultivation now) rows));
        Z.of_nat (length (List.filter (snapshot_stewardship now) rows));
        Z.of_nat (length (List.filter (snapshot_reactivation now) rows)) ].
Proof.
  intros db now oid org segment channel campaign_id stages Hid Hrun rows. subst rows.
  unfold get_lifecycle_snapshot in Hrun. rewrite Hid in Hrun.
  cbn [mbind option_bind] in Hrun.
  rewrite (snapshot_loop_spec now (snapshot_results db org) snapshot_zero
             (snapshot_results_rows db org)) in Hrun.
  cbn [mbind option_bind] in Hrun. injection Hrun as <-.
  reflexivity.
Qed.

Lemma lifecycle_snapshot_stage_counts_witness :
  exists stages : list LifecycleStage,
    get_lifecycle_snapshot example_db example_now example_org None None None
    = Some stages
    /\ map ls_count stages = [0; 0; 1; 0; 1].
Proof.
  eexists. split; [vm_compute; reflexivity | ].
  apply (lifecycle_snapshot_stage_counts example_db example_now example_org
           example_org None None None); [reflexivity | ].
  vm_compute. reflexivity.
Defined.

(** A donor with two donations who gave 1000 or more and whose last donation
    is exactly 365 days old counts under Cultivation. *)
Example snapshot_cultivation_at_365_days :
  snapshot_cultivation (midnight 2026 11 3)
    (mk_SnapshotRow ann 2 (Some (midnight 2025 11 3)) (Some (PyNum.float_of_int 5000)))
  = true.
Proof. reflexivity. Qed.

(** * The matrix of strategic initiatives *)

(** X19: a quadrant is on the high-strategy side (Quick Wins, Big Bets)
    exactly when the strategy score reaches 5, and on the high-investment
    side (Big Bets, Money Pits) exactly when the investment score reaches 5;
    a score that is not a number counts as low. *)
Theorem quadrant_axes :
  forall strategy_score investment_score : float,
    let q := calculate_quadrant strategy_score investment_score in
    (q = QUICK_WINS \/ q = BIG_BETS
     <-> PyNum.geb (PyNum.value_of_float strategy_score) (PyNum.value_of_float five) = true)
    /\ (q = BIG_BETS \/ q = MONEY_PITS
        <-> PyNum.geb (PyNum.value_of_float investment_score)
                      (PyNum.value_of_float five) = true)
    /\ (PyNum.is_nan strategy_score = true -> q = FILL_INS \/ q = MONEY_PITS)
    /\ (PyNum.is_nan investment_score = true -> q = QUICK_WINS \/ q = FILL_INS).
Proof.
  intros s i q. subst q. unfold calculate_quadrant.
  assert (Hs : PyNum.is_nan s = true ->
               PyNum.geb (PyNum.value_of_float s) (PyNum.value_of_float five) = false).
  { destruct s; try discriminate. reflexivity. }
  assert (Hi : PyNum.is_nan i = true ->
               PyNum.geb (PyNum.value_of_float i) (PyNum.value_of_float five) = false).
  { destruct i; try discriminate. reflexivity. }
  destruct (PyNum.geb (PyNum.value_of_float s) _),
           (PyNum.geb (PyNum.value_of_float i) _); cbn.
  all: repeat split; intros; try tauto; try discriminate;
    try (destruct H; discriminate);
    try (specialize (Hs H); discriminate);
    try (specialize (Hi H); discriminate).
Qed.

(** X20: the two recommendation look-ups never fall back to their default
    ["Review carefully"]: every quadrant has its own text. *)
Theorem quadrant_recommendations_never_default :
  forall (quadrant : QuadrantType) (initiative_count : Z),
    get_initiative_recommendation quadrant <> "Review carefully"%string
    /\ get_quadrant_recommendation quadrant initiative_count <> "Review carefully"%string.
Proof.
  intros q n. destruct q; split; cbn; discriminate.
Qed.

Lemma quadrant_list_insert (m : gmap QuadrantType (list StrategicInitiativeInput))
    (k q : QuadrantType) (v : list StrategicInitiativeInput) :
  quadrant_list (<[k := v]> m) q = if bool_decide (k = q) then v else quadrant_list m q.
Proof.
  unfold quadrant_list. case_bool_decide as E.
  - subst. rewrite lookup_insert_eq. reflexivity.
  - rewrite lookup_insert_ne; [reflexivity | exact E].
Qed.

Lemma quadrant_list_empty (q : QuadrantType) : quadrant_list ∅ q = [].
Proof. unfold quadrant_list. rewrite lookup_empty. reflexivity. Qed.

(** The lists built by the first loop: the initiatives of each quadrant, in
    input order, each with its two assignments. *)
Lemma matrix_loop_lists (initiatives : list StrategicInitiativeInput)
    (st : matrix_state) (q : QuadrantType) :
  quadrant_list (quadrant_map (fold_left matrix_step initiatives st)) q
  = quadrant_list (quadrant_map st) q
    ++ map place_initiative (in_quadrant q initiatives).
Proof.
  revert st. induction initiatives as [ | i l IH]; intros st.
  - cbn. rewrite app_nil_r. reflexivity.
  - cbn [fold_left]. rewrite IH. unfold matrix_step. cbn [quadrant_map].
    rewrite quadrant_list_insert. unfold in_quadrant. cbn [List.filter].
    case_bool_decide as E.
    + cbn [map]. rewrite E, <- app_assoc. reflexivity.
    + reflexivity.
Qed.

Lemma in_quadrant_partition (l : list StrategicInitiativeInput) :
  length l
  = (length (in_quadrant QUICK_WINS l) + length (in_quadrant BIG_BETS l)
     + length (in_quadrant FILL_INS l) + length (in_quadrant MONEY_PITS l))%nat.
Proof.
  unfold in_quadrant. induction l as [ | i l IH]; [reflexivity | ].
  cbn [List.filter length].
  destruct (calculate_quadrant _ _);
    repeat (case_bool_decide; try congruence); cbn [length]; lia.
Qed.

Lemma organization_lookup (organizations : list Organization) (id : string) :
  List.filter (fun o => String.eqb (organization_pk o) id) organizations = []
  <-> ~ exists o, In o organizations /\ organization_pk o = id.
Proof.
  split.
  - intros Hnil (o & Ho & Hid).
    assert (Hin : In o (List.filter (fun o => String.eqb (organization_pk o) id)
                          organizations)).
    { apply List.filter_In. split; [exact Ho | ]. apply String.eqb_eq. exact Hid. }
    rewrite Hnil in Hin. destruct Hin.
  - intros Hnone.
    destruct (List.filter _ organizations) as [ | o rest] eqn:Hf; [reflexivity | ].
    exfalso. apply Hnone. exists o.
    assert (Hin : In o (List.filter (fun o => String.eqb (organization_pk o) id)
                          organizations)) by (rewrite Hf; left; reflexivity).
    apply List.filter_In in Hin as [Ho Hid]. apply String.eqb_eq in Hid. eauto.
Qed.

(** X21: the analysis raises [DataError] exactly when the server does not
    read the organization id as a UUID; it answers 404 "Organization not
    found" exactly when the id is a UUID that no organization has; and it
    returns a response exactly when some organization has it, whatever the
    initiatives are. *)
Theorem analysis_404_iff_unknown_organization :
  forall (py_sum : list float -> float) (db : Database)
         (analysis_date : datetime.t) (organization_id : string)
         (initiatives : list StrategicInitiativeInput),
    let outcome :=
      analyze_strategic_initiatives py_sum db analysis_date organization_id
        initiatives in
    (outcome = DataError <-> uuid_in db organization_id = None)
    /\ (outcome = HTTPException 404 "Organization not found"
        <-> exists id : uuid,
              uuid_in db organization_id = Some id
              /\ ~ exists o, In o (organizations db) /\ organization_pk o = id)
    /\ ((exists response, outcome = Returned response)
        <-> exists (id : uuid) (o : Organization),
              uuid_in db organization_id = Some id
              /\ In o (organizations db) /\ organization_pk o = id).
Proof.
  intros py_sum db date oid l outcome. subst outcome.
  unfold analyze_strategic_initiatives.
  destruct (uuid_in db oid) as [id | ].
  - pose proof (organization_lookup (organizations db) id) as Hlookup.
    destruct (List.filter _ (organizations db)) as [ | o rest] eqn:Hf.
    + split; [split; intros H; discriminate H | ]. split; split; intros H.
      * exists id. split; [reflexivity | ]. apply Hlookup. reflexivity.
      * reflexivity.
      * destruct H as [r Hr]. discriminate Hr.
      * exfalso. destruct H as (id' & o & Hid & Ho). injection Hid as <-.
        apply Hlookup; [reflexivity | eauto].
    + assert (Hex : exists o, In o (organizations db) /\ organization_pk o = id).
      { exists o.
        assert (Hin : In o (List.filter (fun o => String.eqb (organization_pk o) id)
                              (organizations db)))
          by (rewrite Hf; left; reflexivity).
        apply List.filter_In in Hin as [Ho Hid]. apply String.eqb_eq in Hid. eauto. }
      split; [split; intros H; discriminate H | ]. split; split; intros H.
      * discriminate H.
      * destruct H as (id' & Hid & Hnone). injection Hid as <-. contradiction.
      * destruct Hex as (o' & Ho'). exists id, o'. split; [reflexivity | exact Ho'].
      * eexists. reflexivity.
  - split; [split; reflexivity | ]. split; split; intros H.
    + discriminate H.
    + destruct H as (id & Hid & _). discriminate Hid.
    + destruct H as [r Hr]. discriminate Hr.
    + destruct H as (id & o & Hid & _). discriminate Hid.
Qed.

Lemma analysis_quadrants (py_sum : list float -> float)
    (db : Database) (analysis_date : datetime.t)
    (organization_id : string) (initiatives : list StrategicInitiativeInput)
    (response : WiseInvestor2x2Response) :
  analyze_strategic_initiatives py_sum db analysis_date
    organization_id initiatives = Returned response ->
  exists m : gmap QuadrantType (list StrategicInitiativeInput),
    (forall q, quadrant_list m q = map place_initiative (in_quadrant q initiatives))
    /\ wi_quadrants response = flat_map (quadrant_block py_sum m) quadrant_types
    /\ wi_total_initiatives response = Z.of_nat (length initiatives).
Proof.
  unfold analyze_strategic_initiatives.
  destruct (uuid_in db organization_id); [ | discriminate].
  destruct (List.filter _ (organizations db)); [discriminate | ].
  intros H. injection H as <-. cbn [wi_quadrants wi_total_initiatives].
  eexists. split; [ | split; reflexivity].
  intros q. rewrite matrix_loop_lists. cbn [quadrant_map].
  rewrite quadrant_list_empty. reflexivity.
Qed.

Lemma quadrant_block_In (py_sum : list float -> float)
    (m : gmap QuadrantType (list StrategicInitiativeInput))
    (q : QuadrantType) (b : WiseInvestorQuadrant) :
  In b (quadrant_block py_sum m q) ->
  wq_quadrant b = q
  /\ wq_initiatives b = quadrant_list m q
  /\ quadrant_list m q <> []
  /\ wq_recommendation b
     = get_quadrant_recommendation q (Z.of_nat (length (quadrant_list m q))).
Proof.
  unfold quadrant_block.
  destruct (quadrant_list m q) as [ | i l] eqn:Hl; [intros [] | ].
  intros [<- | []]. cbn. repeat split. discriminate.
Qed.

Lemma quadrant_block_quadrants (py_sum : list float -> float)
    (m : gmap QuadrantType (list StrategicInitiativeInput)) (q : QuadrantType) :
  map wq_quadrant (quadrant_block py_sum m q)
  = (if match quadrant_list m q with [] => false | _ :: _ => true end then [q] else [])
  /\ fold_right Nat.add 0%nat (map (fun b => length (wq_initiatives b))
                                  (quadrant_block py_sum m q))
     = length (quadrant_list m q).
Proof.
  unfold quadrant_block.
  destruct (quadrant_list m q) as [ | i l]; cbn; split; try reflexivity; lia.
Qed.

(** X22: the quadrants of the response partition the initiatives: their
    sizes add up to [total_initiatives], the number of initiatives sent;
    a quadrant without initiative is left out; the others come in the order
    Quick Wins, Big Bets, Fill-Ins, Money Pits, each once. *)
Theorem quadrants_partition_initiatives :
  forall (py_sum : list float -> float) (db : Database)
         (analysis_date : datetime.t) (organization_id : string)
         (initiatives : list StrategicInitiativeInput)
         (response : WiseInvestor2x2Response),
    analyze_strategic_initiatives py_sum db analysis_date
      organization_id initiatives = Returned response ->
    wi_total_initiatives response = Z.of_nat (length initiatives)
    /\ fold_right Nat.add 0%nat
         (map (fun b => length (wq_initiatives b)) (wi_quadrants response))
       = length initiatives
    /\ map wq_quadrant (wi_quadrants response)
       = List.filter (fun q => match in_quadrant q initiatives with
                               | [] => false
                               | _ :: _ => true
                               end) quadrant_types
    /\ (forall b, In b (wi_quadrants response) -> wq_initiatives b <> []).
Proof.
  intros py_sum db date id l r Hrun.
  destruct (analysis_quadrants _ _ _ _ _ _ Hrun) as (m & Hm & Hq & Htotal).
  split; [exact Htotal | ]. rewrite Hq. unfold quadrant_types. cbn [flat_map List.filter].
  rewrite app_nil_r.
  pose proof (quadrant_block_quadrants py_sum m QUICK_WINS) as [Q1 L1].
  pose proof (quadrant_block_quadrants py_sum m BIG_BETS) as [Q2 L2].
  pose proof (quadrant_block_quadrants py_sum m FILL_INS) as [Q3 L3].
  pose proof (quadrant_block_quadrants py_sum m MONEY_PITS) as [Q4 L4].
  assert (Hsum : forall (f : WiseInvestorQuadrant -> nat) l1 l2,
             fold_right Nat.add 0%nat (map f (l1 ++ l2))
             = (fold_right Nat.add 0%nat (map f l1)
                + fold_right Nat.add 0%nat (map f l2))%nat).
  { intros f l1 l2. induction l1 as [ | a l1 IH]; cbn; [reflexivity | ].
    rewrite IH. lia. }
  split; [ | split].
  - rewrite !Hsum, L1, L2, L3, L4, !Hm, !length_map.
    rewrite (in_quadrant_partition l). lia.
  - rewrite !map_app, Q1, Q2, Q3, Q4, !Hm.
    destruct (in_quadrant QUICK_WINS l), (in_quadrant BIG_BETS l),
             (in_quadrant FILL_INS l), (in_quadrant MONEY_PITS l); reflexivity.
  - intros b Hb. rewrite !in_app_iff in Hb.
    destruct Hb as [Hb | [Hb | [Hb | Hb]]];
      apply quadrant_block_In in Hb as (_ & -> & Hne & _); exact Hne.
Qed.

Lemma quadrants_partition_initiatives_witness :
  exists response : WiseInvestor2x2Response,
    analyze_strategic_initiatives (fun l => fold_left PyNum.fadd l (S754_zero false))
      example_db example_now example_org example_initiatives
    = Returned response
    /\ map wq_quadrant (wi_quadrants response) = [QUICK_WINS; BIG_BETS; MONEY_PITS]
    /\ wi_total_initiatives response = 4.
Proof.
  eexists. split; [vm_compute; reflexivity | ]. split; [reflexivity | ].
  apply (quadrants_partition_initiatives
           (fun l => fold_left PyNum.fadd l (S754_zero false))
           example_db example_now example_org example_initiatives).
  vm_compute. reflexivity.
Defined.

(** X23: the block of a quadrant lists exactly the initiatives whose scores
    fall into it, in the order they were sent, each unchanged but for its
    two new fields: the quadrant and the recommendation of that quadrant;
    and the block's recommendation quotes the number of its initiatives. *)
Theorem quadrant_block_contents :
  forall (py_sum : list float -> float) (db : Database)
         (analysis_date : datetime.t) (organization_id : string)
         (initiatives : list StrategicInitiativeInput)
         (response : WiseInvestor2x2Response) (b : WiseInvestorQuadrant),
    analyze_strategic_initiatives py_sum db analysis_date
      organization_id initiatives = Returned response ->
    In b (wi_quadrants response) ->
    wq_initiatives b
    = map place_initiative (in_quadrant (wq_quadrant b) initiatives)
    /\ wq_recommendation b
       = get_quadrant_recommendation (wq_quadrant b)
           (Z.of_nat (length (wq_initiatives b)))
    /\ (forall i, In i (wq_initiatives b) ->
          si_quadrant i = Some (wq_quadrant b)
          /\ si_recommendation i
             = Some (get_initiative_recommendation (wq_quadrant b))
          /\ calculate_quadrant (strategic_alignment_score i)
               (investment_maturity_score i) = wq_quadrant b).
Proof.
  intros py_sum db date id l r b Hrun Hb.
  destruct (analysis_quadrants _ _ _ _ _ _ Hrun) as (m & Hm & Hq & _).
  rewrite Hq in Hb. apply in_flat_map in Hb as (q & _ & Hb).
  apply quadrant_block_In in Hb as (Hquad & Hinit & _ & Hrec).
  rewrite Hquad, Hinit, Hm. split; [reflexivity | ]. split.
  - rewrite Hrec, Hm. reflexivity.
  - intros i Hi. apply in_map_iff in Hi as (i0 & <- & Hi0).
    unfold in_quadrant in Hi0. apply List.filter_In in Hi0 as [_ Hi0].
    apply bool_decide_eq_true in Hi0.
    unfold place_initiative. cbn. rewrite Hi0. repeat split.
Qed.

Lemma quadrant_block_contents_witness :
  exists (response : WiseInvestor2x2Response) (b : WiseInvestorQuadrant),
    analyze_strategic_initiatives (fun l => fold_left PyNum.fadd l (S754_zero false))
      example_db example_now example_org example_initiatives
    = Returned response
    /\ wi_quadrants response !! 0%nat = Some b
    /\ map si_name (wq_initiatives b) = ["a"; "d"]%string
    /\ wq_initiatives b
       = map place_initiative (in_quadrant (wq_quadrant b) example_initiatives).
Proof.
  eexists _, _. split; [vm_compute; reflexivity | ].
  split; [reflexivity | ]. split; [reflexivity | ].
  eapply (quadrant_block_contents
            (fun l => fold_left PyNum.fadd l (S754_zero false))
            example_db example_now example_org example_initiatives).
  - vm_compute. reflexivity.
  - left. reflexivity.
Defined.

(** * The pattern rule *)

(** X27: a donor with at most one donation has no donation pattern: the
    average frequency computed for them is 0, and the factor "Overdue based
    on donation pattern" is never reported for them. *)
Theorem no_overdue_factor_without_pattern :
  forall (current_date : datetime.t) (donor : DonorStats),
    donation_count donor <= 1 ->
    avg_frequency_of donor = Some (S754_zero false)
    /\ ~ In overdue_factor (snd (risk_of_donor current_date donor)).
Proof.
  intros now donor Hcount.
  assert (Havg : avg_frequency_of donor = Some (S754_zero false)).
  { unfold avg_frequency_of.
    destruct (Z.gtb_spec (donation_count donor) 1); [lia | reflexivity]. }
  split; [exact Havg | ].
  unfold risk_of_donor, avg_frequency_value. rewrite Havg. cbn [default from_option id].
  unfold calculate_churn_risk_advanced, churn_risk_state. cbn [snd].
  unfold high_value_risk, limited_engagement, pattern_deviation, inactivity_period.
  change (PyNum.gtb (PyNum.value_of_float (S754_zero false)) (PyNum.value_of_int 0))
    with false. cbv iota.
  num_bools; z_bools; cbn; intros Hin;
    repeat (destruct Hin as [Hin | Hin]; [discriminate Hin | ]); destruct Hin.
Qed.

Lemma no_overdue_factor_without_pattern_witness :
  ~ In overdue_factor
      (snd (risk_of_donor example_now
              (mk_DonorStats eli "Eli" 1 (Some (midnight 2024 1 1))
                 (Some (PyNum.float_of_int 50)) (Some (midnight 2024 1 1))))).
Proof.
  apply (no_overdue_factor_without_pattern example_now
           (mk_DonorStats eli "Eli" 1 (Some (midnight 2024 1 1))
              (Some (PyNum.float_of_int 50)) (Some (midnight 2024 1 1)))).
  cbn. lia.
Defined.

(** * The CSV export *)

(** X28: the export always asks for the roster, so it raises as soon as one
    donor of the organization reaches the threshold; when it returns, no
    donor does, and the file holds the header record and nothing else. *)
Theorem export_holds_the_header_only :
  forall (list_sort : forall A K : Type,
                        (A -> K) -> (K -> K -> bool) -> bool -> list A -> list A),
    (forall (A K : Type) (key : A -> K) (lt : K -> K -> bool) (reverse : bool)
            (l : list A), Permutation (list_sort A K key lt reverse l) l) ->
    forall (db : Database) (current_date today : datetime.t)
           (organization_id : string) (org : uuid) (risk_threshold : ChurnRisk),
      uuid_in db organization_id = Some org ->
      ((exists row : DonorStats,
          In row (donor_stats db org)
          /\ qualifies current_date risk_threshold row = true) ->
       download_at_risk_donors list_sort db current_date today organization_id
         risk_threshold = None)
      /\ (forall response : Response,
            download_at_risk_donors list_sort db current_date today organization_id
              risk_threshold = Some response ->
            content response = csv_record export_header
            /\ media_type response = "text/csv"%string
            /\ forall row : DonorStats,
                 In row (donor_stats db org) ->
                 qualifies current_date risk_threshold row = false).
Proof.
  intros list_sort Hperm db now today oid org thr Hid.
  unfold download_at_risk_donors. split.
  - intros Hrow. apply existsb_exists in Hrow.
    rewrite (analytics_raises list_sort db now oid org thr Hid Hrow). reflexivity.
  - intros response Hrun.
    destruct (get_donor_lifecycle_analytics list_sort db now oid true thr)
      as [report | ] eqn:Hreport; [ | discriminate Hrun].
    cbn [mbind option_bind] in Hrun. injection Hrun as <-. cbn [content media_type].
    destruct (analytics_report _ _ _ _ _ _ _ Hreport) as (org' & Hid' & Hq).
    rewrite Hid in Hid'. injection Hid' as <-.
    destruct (analytics_spec list_sort db now oid org true thr Hid Hq)
      as (rate & _ & Hspec).
    rewrite Hspec in Hreport. injection Hreport as <-. cbn [at_risk_donors].
    assert (Hnil : sort_at_risk list_sort [] = []).
    { unfold sort_at_risk. apply Permutation_nil. symmetry. apply Hperm. }
    rewrite Hnil. split; [reflexivity | ]. split; [reflexivity | ].
    intros row Hrow. cbn [andb] in Hq.
    destruct (qualifies now thr row) eqn:Hrisk; [ | reflexivity].
    assert (Hex : existsb (qualifies now thr) (donor_stats db org) = true)
      by (apply existsb_exists; eauto).
    rewrite Hex in Hq. discriminate Hq.
Qed.

Lemma export_holds_the_header_only_witness :
  exists response : Response,
    download_at_risk_donors insertion_sort example_db example_now example_now
      steady_org MEDIUM = Some response
    /\ content response = csv_record export_header.
Proof.
  eexists. split; [vm_compute; reflexivity | ].
  destruct (export_holds_the_header_only insertion_sort insertion_sort_Permutation
              example_db example_now example_now steady_org steady_org MEDIUM eq_refl)
    as [_ Hreturned].
  destruct (Hreturned _ eq_refl) as [Hcontent _]. exact Hcontent.
Defined.

(** * The snapshot and the report *)

Lemma prospect_iff_no_donation (now : datetime.t) (donor : DonorStats) :
  stage_of_donor now donor = PROSPECT <-> donation_count donor = 0.
Proof.
  unfold stage_of_donor, calculate_lifecycle_stage_advanced.
  num_bools; z_bools; split; intros Hx; try reflexivity; try discriminate Hx; lia.
Qed.

Lemma parties_with_and_without_donation (db : Database) (org : uuid)
    (l : list Party) :
  length (List.filter (fun p => String.eqb (party_organization_id p) org) l)
  = (length (List.filter (fun p => String.eqb (party_organization_id p) org
                                   && has_donation db p) l)
     + length (List.filter (fun p => String.eqb (party_organization_id p) org
                                     && negb (has_donation db p)) l))%nat.
Proof.
  induction l as [ | p l IH]; [reflexivity | ]. cbn [List.filter].
  destruct (String.eqb (party_organization_id p) org), (has_donation db p);
    cbn [andb negb length]; lia.
Qed.

Lemma prospects_are_parties_without_donation (db : Database) (now : datetime.t)
    (org : uuid) :
  stage_count now PROSPECT (donor_stats db org)
  = Z.of_nat (length (List.filter
                        (fun p => String.eqb (party_organization_id p) org
                                  && negb (has_donation db p))
                        (parties db))).
Proof.
  unfold stage_count, donor_stats. f_equal.
  induction (parties db) as [ | p l IH]; [reflexivity | ]. cbn [List.filter].
  destruct (String.eqb (party_organization_id p) org); cbn [andb map List.filter];
    [ | exact IH].
  assert (Hp : bool_decide
                 (stage_of_donor now
                    {| donor_id := party_id p;
                       donor_name := display_name p;
                       donation_count := Z.of_nat (length (donations_of db p));
                       last_donation_date := sql_max (map received_date (donations_of db p));
                       lifetime_value := sql_sum (map intent_amount (donations_of db p));
                       first_donation_date :=
                         sql_min (map received_date (donations_of db p)) |} = PROSPECT)
               = negb (has_donation db p)).
  { unfold has_donation. case_bool_decide as Hs.
    - apply prospect_iff_no_donation in Hs. cbn in Hs.
      destruct (donations_of db p); [reflexivity | cbn in Hs; lia].
    - destruct (donations_of db p) eqn:Hd; [ | reflexivity].
      exfalso. apply Hs. apply prospect_iff_no_donation. reflexivity. }
  rewrite Hp. destruct (has_donation db p); cbn [negb length]; lia.
Qed.

(** X29: the snapshot and the lifecycle report agree on who is a donor: the
    five counts of the snapshot add up to the report's [total_donors] minus
    its prospects, the parties without any donation. *)
Theorem snapshot_counts_the_non_prospects :
  forall (list_sort : forall A K : Type,
                        (A -> K) -> (K -> K -> bool) -> bool -> list A -> list A)
         (db : Database) (now current_date : datetime.t)
         (organization_id : string) (org : uuid)
         (segment channel campaign_id : option string)
         (include_at_risk : bool) (risk_threshold : ChurnRisk)
         (stages : list LifecycleStage) (report : LifecycleAnalyticsResponse),
    uuid_in db organization_id = Some org ->
    get_lifecycle_snapshot db now organization_id segment channel campaign_id
      = Some stages ->
    get_donor_lifecycle_analytics list_sort db current_date organization_id
      include_at_risk risk_threshold = Some report ->
    fold_right Z.add 0 (map ls_count stages)
    = total_donors (summary_metrics report)
      - stage_count current_date PROSPECT (donor_stats db org).
Proof.
  intros list_sort db now cur oid org seg ch camp inc thr stages report Hid Hsnap Hrun.
  unfold get_lifecycle_snapshot in Hsnap. rewrite Hid in Hsnap.
  cbn [mbind option_bind] in Hsnap.
  rewrite (snapshot_loop_spec now (snapshot_results db org) snapshot_zero
             (snapshot_results_rows db org)) in Hsnap.
  cbn [mbind option_bind] in Hsnap. injection Hsnap as <-.
  cbn [map ls_count fold_right snapshot_zero acquisition_count conversion_count
       cultivation_count stewardship_count reactivation_count].
  destruct (analytics_report _ _ _ _ _ _ _ Hrun) as (org' & Hid' & Hq).
  rewrite Hid in Hid'. injection Hid' as <-.
  destruct (analytics_spec list_sort db cur oid org inc thr Hid Hq) as (rate & _ & Hspec).
  rewrite Hspec in Hrun. injection Hrun as <-. cbn [summary_metrics total_donors].
  rewrite prospects_are_parties_without_donation.
  pose proof (snapshot_stages_partition now (snapshot_results db org)
                (snapshot_results_rows db org)) as Hsum.
  unfold snapshot_results in Hsum at 5. rewrite length_map in Hsum.
  unfold donor_stats. rewrite length_map.
  rewrite (parties_with_and_without_donation db org (parties db)). lia.
Qed.

Lemma snapshot_counts_the_non_prospects_witness :
  exists (stages : list LifecycleStage) (report : LifecycleAnalyticsResponse),
    get_lifecycle_snapshot example_db example_now steady_org None None None
    = Some stages
    /\ get_donor_lifecycle_analytics insertion_sort example_db example_now steady_org
         true MEDIUM = Some report
    /\ fold_right Z.add 0 (map ls_count stages)
       = total_donors (summary_metrics report)
         - stage_count example_now PROSPECT (donor_stats example_db steady_org).
Proof.
  eexists _, _.
  split; [vm_compute; reflexivity | ]. split; [vm_compute; reflexivity | ].
  apply (snapshot_counts_the_non_prospects insertion_sort example_db example_now
           example_now steady_org steady_org None None None true MEDIUM).
  - reflexivity.
  - vm_compute. reflexivity.
  - vm_compute. reflexivity.
Defined.

(** * The order of the rows

    No query of the endpoint asks for an order, so the server may yield the
    parties in any order.  The report does not depend on it. *)









